(** * The cached, rate-limited remote-query layer of notion-ultimate-tool

    A shallow embedding of [src/core/database.py] ([LocalCache]) and
    [src/core/notion_api.py] ([NotionAPI]) and the properties their
    specification states about them.

    Conventions of the embedding.
    - Python values that reach the cache are JSON-serialisable; they are the
      inductive type [value].  [json.loads (json.dumps v)] is [v] on that
      type, so the [value] column of the table holds the value itself.
    - [datetime] instants are integers, in microseconds; [timedelta] turns
      seconds into microseconds.  SQLite compares the stored timestamps as
      ISO-8601 text, whose order is the chronological one.
    - [datetime.now()] reads a simulated clock that is passed to the cache
      operations as [now].
    - The [cache] table has [key] as PRIMARY KEY: it is a finite map from
      keys to rows.
    - [Logger] calls are observability only and are left out. *)

From Stdlib Require Import ZArith List String Ascii Bool Lia DecimalString.
From stdpp Require Import gmap strings list fin_maps.

Local Open Scope Z_scope.

(** ** Python values *)

Module Py.

#[warnings="-register-all"]
Inductive value : Type :=
| VNone
| VBool (b : bool)
| VInt (n : Z)
| VStr (s : string)
| VList (l : list value)
| VDict (d : list (string * value)).

(** [bool(v)]: the truth value Python's [if v:] tests. *)
Definition truthy (v : value) : bool :=
  match v with
  | VNone => false
  | VBool b => b
  | VInt n => negb (n =? 0)
  | VStr s => negb (String.eqb s "")
  | VList l => match l with [] => false | _ => true end
  | VDict d => match d with [] => false | _ => true end
  end.

(** [v is not None] *)
Definition is_not_None (v : value) : bool :=
  match v with VNone => false | _ => true end.

Definition dquote : ascii := "034"%char.
Definition squote : ascii := "039"%char.
Definition backslash : ascii := "092"%char.

Fixpoint contains (c : ascii) (s : string) : bool :=
  match s with
  | EmptyString => false
  | String d s' => Ascii.eqb c d || contains c s'
  end.

Definition hex_digit (n : Z) : ascii :=
  ascii_of_N (Z.to_N (if n <? 10 then 48 + n else 87 + n)).

Definition hex2 (n : Z) : string :=
  String (hex_digit (n / 16)) (String (hex_digit (n mod 16)) "").

(** One character of [repr] of a [str], inside quotes [q]. *)
Definition repr_char (q c : ascii) : string :=
  let n := Z.of_N (N_of_ascii c) in
  if Ascii.eqb c backslash then String backslash (String backslash "")
  else if Ascii.eqb c q then String backslash (String q "")
  else if n =? 10 then String backslash "n"
  else if n =? 13 then String backslash "r"
  else if n =? 9 then String backslash "t"
  else if (n <? 32) || (n =? 127) then String backslash ("x" +:+ hex2 n)
  else String c "".

Fixpoint repr_chars (q : ascii) (s : string) : string :=
  match s with
  | EmptyString => ""
  | String c s' => repr_char q c +:+ repr_chars q s'
  end.

(** [repr] of a [str]: single quotes, unless the text has a single quote and
    no double quote. *)
Definition repr_str (s : string) : string :=
  let q := if contains squote s && negb (contains dquote s) then dquote else squote in
  String q (repr_chars q s +:+ String q "").

Definition repr_int (n : Z) : string := NilZero.string_of_int (Z.to_int n).

(** [repr(v)] *)
Fixpoint repr (v : value) : string :=
  match v with
  | VNone => "None"
  | VBool b => if b then "True" else "False"
  | VInt n => repr_int n
  | VStr s => repr_str s
  | VList l =>
      "[" +:+ (fix items (l : list value) : string :=
                 match l with
                 | [] => ""
                 | x :: r =>
                     match r with
                     | [] => repr x
                     | _ => repr x +:+ ", " +:+ items r
                     end
                 end) l +:+ "]"
  | VDict d =>
      "{" +:+ (fix items (d : list (string * value)) : string :=
                 match d with
                 | [] => ""
                 | (k, x) :: r =>
                     match r with
                     | [] => repr_str k +:+ ": " +:+ repr x
                     | _ => repr_str k +:+ ": " +:+ repr x +:+ ", " +:+ items r
                     end
                 end) d +:+ "}"
  end.

(** [str(v)]: a [str] is itself, every other value its [repr]. *)
Definition str (v : value) : string :=
  match v with
  | VStr s => s
  | _ => repr v
  end.

(** [d.get(key)] on a dict *)
Fixpoint assoc_get (key : string) (d : list (string * value)) : option value :=
  match d with
  | [] => None
  | (k, x) :: rest => if String.eqb k key then Some x else assoc_get key rest
  end.

Definition dict_get (key : string) (v : value) : option value :=
  match v with
  | VDict d => assoc_get key d
  | _ => None
  end.

(** [sep.join(parts)] *)
Fixpoint join (sep : string) (parts : list string) : string :=
  match parts with
  | [] => ""
  | p :: rest =>
      match rest with
      | [] => p
      | _ => p +:+ sep +:+ join sep rest
      end
  end.

(** [s.encode()]: the bytes of the text. *)
Definition encode (s : string) : list Z :=
  map (fun c => Z.of_N (N_of_ascii c)) (list_ascii_of_string s).

End Py.

(** ** [hashlib.md5], as RFC 1321 defines it *)

Module MD5.

Definition mask32 : Z := 4294967295.

Definition add32 (a b : Z) : Z := Z.land (a + b) mask32.

Definition not32 (a : Z) : Z := Z.lxor a mask32.

Definition rotl32 (x c : Z) : Z :=
  Z.land (Z.lor (Z.shiftl x c) (Z.shiftr x (32 - c))) mask32.

Definition K : list Z :=
  [3614090360; 3905402710; 606105819; 3250441966; 4118548399; 1200080426;
   2821735955; 4249261313; 1770035416; 2336552879; 4294925233; 2304563134;
   1804603682; 4254626195; 2792965006; 1236535329; 4129170786; 3225465664;
   643717713; 3921069994; 3593408605; 38016083; 3634488961; 3889429448;
   568446438; 3275163606; 4107603335; 1163531501; 2850285829; 4243563512;
   1735328473; 2368359562; 4294588738; 2272392833; 1839030562; 4259657740;
   2763975236; 1272893353; 4139469664; 3200236656; 681279174; 3936430074;
   3572445317; 76029189; 3654602809; 3873151461; 530742520; 3299628645;
   4096336452; 1126891415; 2878612391; 4237533241; 1700485571; 2399980690;
   4293915773; 2240044497; 1873313359; 4264355552; 2734768916; 1309151649;
   4149444226; 3174756917; 718787259; 3951481745].

Definition S : list Z :=
  [7; 12; 17; 22; 7; 12; 17; 22; 7; 12; 17; 22; 7; 12; 17; 22;
   5; 9; 14; 20; 5; 9; 14; 20; 5; 9; 14; 20; 5; 9; 14; 20;
   4; 11; 16; 23; 4; 11; 16; 23; 4; 11; 16; 23; 4; 11; 16; 23;
   6; 10; 15; 21; 6; 10; 15; 21; 6; 10; 15; 21; 6; 10; 15; 21].

Definition nthZ (l : list Z) (i : Z) : Z := nth (Z.to_nat i) l 0.

(** The message followed by 0x80, zeros up to 56 modulo 64, and the bit
    length on 8 little-endian bytes. *)
Definition le_bytes (count : nat) (x : Z) : list Z :=
  map (fun i => Z.land (Z.shiftr x (8 * Z.of_nat i)) 255) (seq 0 count).

Definition pad (msg : list Z) : list Z :=
  let len := Z.of_nat (length msg) in
  let zeros := Z.to_nat ((55 - len) mod 64) in
  msg ++ [128] ++ repeat 0 zeros ++ le_bytes 8 (Z.land (8 * len) 18446744073709551615).

Fixpoint le_words (count : nat) (bytes : list Z) : list Z :=
  match count with
  | O => []
  | Datatypes.S count' =>
      match bytes with
      | b0 :: b1 :: b2 :: b3 :: rest =>
          (b0 + Z.shiftl b1 8 + Z.shiftl b2 16 + Z.shiftl b3 24) :: le_words count' rest
      | _ => []
      end
  end.

Definition state : Type := (Z * Z * Z * Z)%type.

Definition step (M : list Z) (st : state) (i : Z) : state :=
  let '(A, B, C, D) := st in
  let '(F, g) :=
    if i <? 16 then (Z.lor (Z.land B C) (Z.land (not32 B) D), i)
    else if i <? 32 then (Z.lor (Z.land D B) (Z.land (not32 D) C), (5 * i + 1) mod 16)
    else if i <? 48 then (Z.lxor (Z.lxor B C) D, (3 * i + 5) mod 16)
    else (Z.lxor C (Z.lor B (not32 D)), (7 * i) mod 16) in
  let F' := add32 (add32 (add32 F A) (nthZ K i)) (nthZ M g) in
  (D, add32 B (rotl32 F' (nthZ S i)), B, C).

Definition block (st : state) (M : list Z) : state :=
  let '(a0, b0, c0, d0) := st in
  let '(A, B, C, D) := fold_left (step M) (map Z.of_nat (seq 0 64)) st in
  (add32 a0 A, add32 b0 B, add32 c0 C, add32 d0 D).

Fixpoint blocks (count : nat) (bytes : list Z) (st : state) : state :=
  match count with
  | O => st
  | Datatypes.S count' => blocks count' (skipn 64 bytes) (block st (le_words 16 bytes))
  end.

Definition init : state := (1732584193, 4023233417, 2562383102, 271733878).

Definition digest (msg : list Z) : list Z :=
  let padded := pad msg in
  let '(A, B, C, D) := blocks (Nat.div (length padded) 64) padded init in
  le_bytes 4 A ++ le_bytes 4 B ++ le_bytes 4 C ++ le_bytes 4 D.

Definition hexdigest (msg : list Z) : string :=
  fold_right (fun b acc => Py.hex2 b +:+ acc) "" (digest msg).

End MD5.

(** ** SQLite's [LIKE] operator

    [%] matches any run of characters, [_] exactly one; every other
    character of the pattern, [*] included, stands for itself, compared
    without regard to ASCII case. *)

Module Sql.

Definition lower (c : ascii) : ascii :=
  let n := N_of_ascii c in
  if ((65 <=? n) && (n <=? 90))%N then ascii_of_N (n + 32) else c.

Fixpoint like_chars (pattern text : list ascii) : bool :=
  match pattern with
  | [] => match text with [] => true | _ => false end
  | p :: pattern' =>
      if Ascii.eqb p "%"%char then
        (fix any_suffix (t : list ascii) : bool :=
           like_chars pattern' t ||
           match t with [] => false | _ :: t' => any_suffix t' end) text
      else if Ascii.eqb p "_"%char then
        match text with [] => false | _ :: text' => like_chars pattern' text' end
      else
        match text with
        | [] => false
        | c :: text' => Ascii.eqb (lower p) (lower c) && like_chars pattern' text'
        end
  end.

(** [text LIKE pattern] *)
Definition like (text pattern : string) : bool :=
  like_chars (list_ascii_of_string pattern) (list_ascii_of_string text).

End Sql.

(** ** [LocalCache] ([src/core/database.py]) *)

Module LocalCache.

(** A row of the [cache] table. *)
Record row : Type := Row {
  value_json : Py.value;
  created_at : Z;
  expires_at : option Z
}.

(** [timedelta(seconds=n)], in microseconds. *)
Definition timedelta (seconds : Z) : Z := seconds * 1000000.

(** [if n:] on an [Optional[int]] *)
Definition given (n : option Z) : bool :=
  match n with
  | Some k => negb (k =? 0)
  | None => false
  end.

(** [generate_key( *args )] *)
Definition generate_key (args : list Py.value) : string :=
  let key_str := Py.join ":" (map Py.str (List.filter Py.is_not_None args)) in
  MD5.hexdigest (Py.encode key_str).

(** [get(key, max_age)]; [None] is the miss. *)
Definition get (c : gmap string row) (now : Z) (key : string)
    (max_age : option Z) : option Py.value :=
  let fetched :=
    if given max_age then
      let min_time := now - timedelta (default 0 max_age) in
      match c !! key with
      | Some r => if min_time <? created_at r then Some r else None
      | None => None
      end
    else c !! key in
  match fetched with
  | Some r => Some (value_json r)
  | None => None
  end.

(** [set(key, value, ttl)]: INSERT OR REPLACE. *)
Definition set (c : gmap string row) (now : Z) (key : string) (v : Py.value)
    (ttl : option Z) : gmap string row :=
  let expires := if given ttl then Some (now + timedelta (default 0 ttl)) else None in
  <[key := Row v now expires]> c.

(** [invalidate(key)] *)
Definition invalidate (c : gmap string row) (key : string) : gmap string row :=
  delete key c.

(** [invalidate_pattern(pattern)]: DELETE ... WHERE key LIKE pattern. *)
Definition invalidate_pattern (c : gmap string row) (pattern : string)
    : gmap string row :=
  filter (fun kr => Sql.like (fst kr) pattern = false) c.

(** [clear()] *)
Definition clear (c : gmap string row) : gmap string row := ∅.

(** [cleanup_expired()]: DELETE ... WHERE expires_at IS NOT NULL AND
    expires_at < now. *)
Definition expired (now : Z) (r : row) : bool :=
  match expires_at r with
  | Some e => e <? now
  | None => false
  end.

Definition cleanup_expired (c : gmap string row) (now : Z) : gmap string row :=
  filter (fun kr => expired now (snd kr) = false) c.

End LocalCache.

(** ** [Config] ([src/core/config.py]) *)

Module Config.

(** The settings the access layer can see. *)
Record t : Type := Make {
  notion_token : string;
  database_id : string;
  cache_enabled : bool;
  cache_ttl : Z;
  cache_db_path : string;
  rate_limit_requests_per_second : Z
}.

End Config.

(** ** [NotionAPI] ([src/core/notion_api.py]) *)

Module NotionAPI.

Import Py.

(** The exceptions a remote call raises: [APIResponseError] with its
    [code], [RequestTimeoutError], or any other [Exception]. *)
Inductive exn : Type :=
| APIResponseError (code message : string)
| RequestTimeoutError (message : string)
| OtherError (message : string).

(** [str(e)] *)
Definition exn_str (e : exn) : string :=
  match e with
  | APIResponseError _ message => message
  | RequestTimeoutError message => message
  | OtherError message => message
  end.

Inductive result (A : Type) : Type :=
| Returned (a : A)
| Raised (e : exn).
Arguments Returned {A} a.
Arguments Raised {A} e.

(** What [client.databases.query] answers. *)
Record query_response : Type := QueryResponse {
  results : list value;
  has_more : bool;
  next_cursor : option string
}.

(** The remote calls, as labels of the trace. *)
Inductive request : Type :=
| DatabasesQuery (database_id : string) (filter sorts : value) (start_cursor : option string)
| PagesRetrieve (page_id : string)
| PagesUpdate (page_id : string) (properties : value)
| PagesCreate (database_id : string) (properties children : value).

(** What the layer does to the outside, in order. *)
Inductive event : Type :=
| Wait
| Attempt (what : request)
| Sleep (micros : Z).

(** The outside of the layer: the remote service behind [notion_client],
    the rate limiter, [time.sleep] and the clock, as transitions of an
    environment state. *)
Class Client (E : Type) : Type := {
  databases_query : string -> value -> value -> option string -> E -> result query_response * E;
  pages_retrieve : string -> E -> result value * E;
  pages_update : string -> value -> E -> result value * E;
  pages_create : string -> value -> value -> E -> result value * E;
  rate_limiter_wait : E -> E;
  time_sleep : Z -> E -> E;
  datetime_now : E -> Z
}.

Section Facade.

Context {E : Type} `{Client E}.

Record world : Type := World {
  cache : gmap string LocalCache.row;
  env : E;
  trace : list event
}.

Definition emit (ev : event) (w : world) : world :=
  World (cache w) (env w) (trace w ++ [ev]).

Definition with_env (e : E) (w : world) : world :=
  World (cache w) e (trace w).

Definition with_cache (c : gmap string LocalCache.row) (w : world) : world :=
  World c (env w) (trace w).

(** [self.rate_limiter.wait()] *)
Definition wait (w : world) : world :=
  emit Wait (with_env (rate_limiter_wait (env w)) w).

(** [time.sleep(d)], [d] in microseconds *)
Definition sleep (micros : Z) (w : world) : world :=
  emit (Sleep micros) (with_env (time_sleep micros (env w)) w).

Definition seconds (n : Z) : Z := LocalCache.timedelta n.

(** The [for attempt in range(max_retries)] loop of [_execute_with_retry],
    with [remaining] iterations left.  Falling out of the loop returns
    Python's [None]. *)
Fixpoint retry_loop {A : Type} (what : request) (func : E -> result A * E)
    (max_retries : Z) (remaining : nat) (attempt : Z) (w : world)
    : result (option A) * world :=
  match remaining with
  | O => (Returned None, w)
  | S remaining' =>
      let w1 := wait w in
      let '(r, e2) := func (env w1) in
      let w2 := emit (Attempt what) (with_env e2 w1) in
      match r with
      | Returned a => (Returned (Some a), w2)
      | Raised (APIResponseError code message) =>
          if String.eqb code "rate_limited" && (attempt <? max_retries - 1) then
            let wait_time := 2 ^ attempt in
            retry_loop what func max_retries remaining' (attempt + 1)
              (sleep (seconds wait_time) w2)
          else (Raised (APIResponseError code message), w2)
      | Raised (RequestTimeoutError message) =>
          if attempt <? max_retries - 1 then
            retry_loop what func max_retries remaining' (attempt + 1)
              (sleep (seconds 1) w2)
          else (Raised (RequestTimeoutError message), w2)
      | Raised (OtherError message) => (Raised (OtherError message), w2)
      end
  end.

Definition _execute_with_retry {A : Type} (what : request)
    (func : E -> result A * E) (max_retries : Z) (w : world)
    : result (option A) * world :=
  retry_loop what func max_retries (Z.to_nat max_retries) 0 w.

Definition default_max_retries : Z := 3.

(** [if cached:] on what [cache.get] returned *)
Definition cache_hit (cached : option value) : option value :=
  match cached with
  | Some v => if truthy v then Some v else None
  | None => None
  end.

(** [database_id or self.config.database_id] *)
Definition db_id_of (cfg : Config.t) (database_id : option string) : string :=
  match database_id with
  | Some d => if String.eqb d "" then Config.database_id cfg else d
  | None => Config.database_id cfg
  end.

(** The [while has_more] loop of [query_database]; [None] when [fuel] pages
    were requested and the remote still reports more. *)
Fixpoint fetch_pages (fuel : nat) (db_id : string) (filter_dict sorts : value)
    (start_cursor : option string) (acc : list value) (w : world)
    : option (result (list value) * world) :=
  match fuel with
  | O => None
  | S fuel' =>
      let '(r, w1) :=
        _execute_with_retry (DatabasesQuery db_id filter_dict sorts start_cursor)
          (databases_query db_id filter_dict sorts start_cursor)
          default_max_retries w in
      match r with
      | Raised e => Some (Raised e, w1)
      | Returned None =>
          Some (Raised (OtherError "'NoneType' object has no attribute 'get'"), w1)
      | Returned (Some response) =>
          let acc' := acc ++ results response in
          if has_more response
          then fetch_pages fuel' db_id filter_dict sorts (next_cursor response) acc' w1
          else Some (Returned acc', w1)
      end
  end.

Definition default_cache_ttl : Z := 300.

Definition default_use_cache : bool := true.

Definition query_key (db_id : string) (filter_dict sorts : value) : string :=
  LocalCache.generate_key [VStr "query"; VStr db_id; filter_dict; sorts].

(** [query_database(database_id, filter_dict, sorts, use_cache, cache_ttl)] *)
Definition query_database (fuel : nat) (cfg : Config.t) (database_id : option string)
    (filter_dict sorts : value) (use_cache : bool) (cache_ttl : Z) (w : world)
    : option (result value * world) :=
  let db_id := db_id_of cfg database_id in
  let cache_key := query_key db_id filter_dict sorts in
  let cached :=
    if use_cache
    then cache_hit (LocalCache.get (cache w) (datetime_now (env w)) cache_key (Some cache_ttl))
    else None in
  match cached with
  | Some v => Some (Returned v, w)
  | None =>
      match fetch_pages fuel db_id filter_dict sorts None [] w with
      | None => None
      | Some (Raised e, w1) => Some (Raised e, w1)
      | Some (Returned items, w1) =>
          let w2 :=
            if use_cache
            then with_cache (LocalCache.set (cache w1) (datetime_now (env w1)) cache_key
                               (VList items) None) w1
            else w1 in
          Some (Returned (VList items), w2)
      end
  end.

Definition page_key (page_id : string) : string :=
  LocalCache.generate_key [VStr "page"; VStr page_id].

(** A missing return value is Python's [None]. *)
Definition or_None (v : option value) : value := default VNone v.

(** [get_page(page_id, use_cache)] *)
Definition get_page (page_id : string) (use_cache : bool) (w : world)
    : result value * world :=
  let cache_key := page_key page_id in
  let cached :=
    if use_cache
    then cache_hit (LocalCache.get (cache w) (datetime_now (env w)) cache_key None)
    else None in
  match cached with
  | Some v => (Returned v, w)
  | None =>
      let '(r, w1) :=
        _execute_with_retry (PagesRetrieve page_id) (pages_retrieve page_id)
          default_max_retries w in
      match r with
      | Raised e => (Raised e, w1)
      | Returned page =>
          let w2 :=
            if use_cache
            then with_cache (LocalCache.set (cache w1) (datetime_now (env w1)) cache_key
                               (or_None page) None) w1
            else w1 in
          (Returned (or_None page), w2)
      end
  end.

(** [update_page(page_id, properties)] *)
Definition update_page (page_id : string) (properties : value) (w : world)
    : result value * world :=
  let '(r, w1) :=
    _execute_with_retry (PagesUpdate page_id properties) (pages_update page_id properties)
      default_max_retries w in
  match r with
  | Raised e => (Raised e, w1)
  | Returned res =>
      let c1 := LocalCache.invalidate (cache w1) ("page:" +:+ page_id) in
      let c2 := LocalCache.invalidate_pattern c1 "query:*" in
      (Returned (or_None res), with_cache c2 w1)
  end.

(** One element of [updates]. *)
Record update : Type := Update {
  page_id : string;
  properties : value
}.

Definition success_entry (u : update) (res : value) : value :=
  VDict [("success", VBool true); ("page_id", VStr (page_id u)); ("result", res)].

Definition failure_entry (u : update) (e : exn) : value :=
  VDict [("success", VBool false); ("page_id", VStr (page_id u)); ("error", VStr (exn_str e))].

(** The [for i, update in enumerate(updates, 1)] loop of
    [batch_update_pages]. *)
Fixpoint batch_loop (total : Z) (delay_between_requests : Z) (i : Z)
    (updates : list update) (acc : list value) (w : world) : list value * world :=
  match updates with
  | [] => (acc, w)
  | u :: rest =>
      let '(r, w1) := update_page (page_id u) (properties u) w in
      let entry :=
        match r with
        | Returned res => success_entry u res
        | Raised e => failure_entry u e
        end in
      let w2 := if i <? total then sleep delay_between_requests w1 else w1 in
      batch_loop total delay_between_requests (i + 1) rest (acc ++ [entry]) w2
  end.

(** [batch_update_pages(updates, delay_between_requests)] *)
Definition batch_update_pages (updates : list update) (delay_between_requests : Z)
    (w : world) : list value * world :=
  batch_loop (Z.of_nat (length updates)) delay_between_requests 1 updates [] w.

Definition default_delay_between_requests : Z := 400000.

(** [result[key]] on what a remote call returned: a [KeyError] for a dict
    without the key, a [TypeError] for a value that is no dict.  The text of
    a [KeyError] is the [repr] of the key. *)
Definition subscript (v : value) (key : string) : result value :=
  match v with
  | VDict d =>
      match assoc_get key d with
      | Some x => Returned x
      | None => Raised (OtherError (repr_str key))
      end
  | VNone => Raised (OtherError "'NoneType' object is not subscriptable")
  | VBool _ => Raised (OtherError "'bool' object is not subscriptable")
  | VInt _ => Raised (OtherError "'int' object is not subscriptable")
  | VStr _ => Raised (OtherError "string indices must be integers, not 'str'")
  | VList _ => Raised (OtherError "list indices must be integers or slices, not str")
  end.

(** [children or []] *)
Definition children_or_empty (children : value) : value :=
  if truthy children then children else VList [].

(** [create_page(database_id, properties, children)]; the last log line
    reads [result['id']] and so can raise. *)
Definition create_page (database_id : string) (properties children : value)
    (w : world) : result value * world :=
  let '(r, w1) :=
    _execute_with_retry
      (PagesCreate database_id properties (children_or_empty children))
      (pages_create database_id properties (children_or_empty children))
      default_max_retries w in
  match r with
  | Raised e => (Raised e, w1)
  | Returned res =>
      let w2 := with_cache (LocalCache.invalidate_pattern (cache w1) "query:*") w1 in
      match subscript (or_None res) "id" with
      | Raised e => (Raised e, w2)
      | Returned _ => (Returned (or_None res), w2)
      end
  end.

(** [clear_cache()] *)
Definition clear_cache (w : world) : world :=
  with_cache (LocalCache.clear (cache w)) w.

End Facade.

End NotionAPI.

(** * A scripted environment

    A remote service that answers its calls from a script, one reply per
    call, and from [fallback] once the script is used up; a clock that only
    [time.sleep] moves.  It gives the concrete runs below. *)

Module Sim.

Import Py NotionAPI.

Inductive reply : Type :=
| Ok (items : list value) (more : bool)
| Fail (e : exn).

Record env : Type := Env {
  clock : Z;
  script : list reply;
  fallback : reply
}.

Definition next (s : env) : reply * env :=
  match script s with
  | [] => (fallback s, s)
  | r :: rest => (r, Env (clock s) rest (fallback s))
  end.

Definition answer {A : Type} (make : list value -> bool -> A) (s : env)
    : result A * env :=
  match next s with
  | (Ok items more, s') => (Returned (make items more), s')
  | (Fail e, s') => (Raised e, s')
  end.

#[global] Instance client : Client env := {
  databases_query _ _ _ _ :=
    answer (fun items more =>
              QueryResponse items more (if more then Some "next" else None));
  pages_retrieve page_id :=
    answer (fun items _ => VDict [("id", VStr page_id); ("properties", VList items)]);
  pages_update page_id properties :=
    answer (fun _ _ => VDict [("id", VStr page_id); ("properties", properties)]);
  pages_create database_id properties children :=
    answer (fun _ _ => VDict [("id", VStr "new"); ("properties", properties)]);
  rate_limiter_wait s := s;
  time_sleep micros s := Env (clock s + micros) (script s) (fallback s);
  datetime_now := clock
}.


Definition rate_limit_error : exn := APIResponseError "rate_limited" "slow down".
Definition timeout_error : exn := RequestTimeoutError "request timed out".
Definition validation_error : exn := APIResponseError "validation_error" "bad request".

(** A world with cache [c], the clock at [t] and the given script. *)
Definition start (c : gmap string LocalCache.row) (t : Z) (replies : list reply)
    (otherwise : reply) : world :=
  World c (Env t replies otherwise) [].

Definition config (enabled : bool) : Config.t :=
  Config.Make "secret" "db1" enabled 300 ".notion_cache.db" 3.

End Sim.

(** * A paging remote service

    A remote service that holds the result of a query as a sequence of
    pages and serves the page its cursor selects: no cursor selects the
    first page, the cursor announced with page [i] selects page [i + 1].
    Every remote call takes [latency] on the clock. *)

Module Pager.

Import Py NotionAPI.

Record env : Type := Env {
  clock : Z;
  pages : list (list value);
  latency : Z
}.

(** The cursor that selects page [i]: the letter c, [i] times. *)
Fixpoint cursor_of (i : nat) : string :=
  match i with
  | O => ""
  | S j => String "c" (cursor_of j)
  end.

Definition page_index (start_cursor : option string) : nat :=
  match start_cursor with
  | None => O
  | Some cursor => String.length cursor
  end.

Definition elapse (s : env) : env := Env (clock s + latency s) (pages s) (latency s).

Definition query (start_cursor : option string) (s : env) : result query_response * env :=
  let i := page_index start_cursor in
  match pages s !! i with
  | Some page =>
      let more := (S i <? length (pages s))%nat in
      (Returned (QueryResponse page more (if more then Some (cursor_of (S i)) else None)),
       elapse s)
  | None => (Raised (APIResponseError "validation_error" "no such page"), elapse s)
  end.

Definition not_found (s : env) : result value * env :=
  (Raised (APIResponseError "object_not_found" "no such object"), elapse s).

#[global] Instance client : Client env := {
  databases_query _ _ _ start_cursor := query start_cursor;
  pages_retrieve _ := not_found;
  pages_update _ _ := not_found;
  pages_create _ _ _ := not_found;
  rate_limiter_wait s := s;
  time_sleep micros s := Env (clock s + micros) (pages s) (latency s);
  datetime_now := clock
}.

(** A world with cache [c], the clock at [t] and the given pages. *)
Definition start (c : gmap string LocalCache.row) (t : Z) (result_pages : list (list value))
    (call_latency : Z) : world :=
  World c (Env t result_pages call_latency) [].

End Pager.

(** * The vocabulary of the specification *)

Module Contract.

Import Py LocalCache NotionAPI.

(** The three kinds of failure of the specification. *)
Definition rate_limited (e : exn) : bool :=
  match e with
  | APIResponseError code _ => String.eqb code "rate_limited"
  | _ => false
  end.

Definition timed_out (e : exn) : bool :=
  match e with
  | RequestTimeoutError _ => true
  | _ => false
  end.

Definition fatal (e : exn) : bool := negb (rate_limited e) && negb (timed_out e).


(** The characters of a digest in hexadecimal. *)
Definition hex_chars : list ascii := list_ascii_of_string "0123456789abcdef".

(** What a run leaves visible apart from the cache: the result, the
    environment and the trace. *)
Definition observed {E : Type} `{Client E} {A : Type} (out : A * world)
    : A * E * list event :=
  (fst out, env (snd out), trace (snd out)).

Section WithClient.

Context {E : Type} `{Client E}.

(** The batch contract of the specification: the items are taken in order,
    each through [update_page]; a success is reported with its result and
    has invalidated the cache; a failure is reported with its error and has
    left the cache alone; either way the rest of the batch is processed,
    after the pacing delay when items remain. *)
Inductive batch_run (delay : Z)
    : world -> list update -> list value -> world -> Prop :=
| batch_done (w : world) :
    batch_run delay w [] [] w
| batch_success (w : world) u rest res (w1 : world) entries (w' : world) :
    update_page (page_id u) (properties u) w = (Returned res, w1) ->
    cache w1 =
      invalidate_pattern (invalidate (cache w) ("page:" +:+ page_id u)) "query:*" ->
    batch_run delay (match rest with [] => w1 | _ => sleep delay w1 end) rest entries w' ->
    batch_run delay w (u :: rest) (success_entry u res :: entries) w'
| batch_failure (w : world) u rest e (w1 : world) entries (w' : world) :
    update_page (page_id u) (properties u) w = (Raised e, w1) ->
    cache w1 = cache w ->
    batch_run delay (match rest with [] => w1 | _ => sleep delay w1 end) rest entries w' ->
    batch_run delay w (u :: rest) (failure_entry u e :: entries) w'.

End WithClient.

End Contract.

(** * Patterns and keys, as texts *)

Module Text.

(** The two wildcards of [LIKE]. *)
Definition wildcard (c : ascii) : bool := Ascii.eqb c "%" || Ascii.eqb c "_".

(** A pattern with no wildcard in it. *)
Definition plain (pattern : list ascii) : bool := forallb (fun c => negb (wildcard c)) pattern.

(** Equality of two texts up to ASCII case. *)
Fixpoint same_fold (a b : list ascii) : bool :=
  match a, b with
  | [], [] => true
  | x :: a', y :: b' => Ascii.eqb (Sql.lower x) (Sql.lower y) && same_fold a' b'
  | _, _ => false
  end.

(** [b] starts with [a], up to ASCII case. *)
Fixpoint prefix_fold (a b : list ascii) : bool :=
  match a with
  | [] => true
  | x :: a' =>
      match b with
      | [] => false
      | y :: b' => Ascii.eqb (Sql.lower x) (Sql.lower y) && prefix_fold a' b'
      end
  end.

(** A character of a digest in hexadecimal. *)
Definition is_hex (c : ascii) : bool :=
  existsb (Ascii.eqb c) (list_ascii_of_string "0123456789abcdef").

End Text.

(** * Measures of a trace *)

Module Measure.

Import NotionAPI Contract.

Definition is_attempt (ev : event) : bool :=
  match ev with Attempt _ => true | _ => false end.

Definition is_wait (ev : event) : bool :=
  match ev with Wait => true | _ => false end.

Definition is_sleep (ev : event) : bool :=
  match ev with Sleep _ => true | _ => false end.

(** The numbers of remote attempts, of rate-limiter acquisitions and of
    sleeps in a trace. *)
Definition attempts (tr : list event) : nat := length (List.filter is_attempt tr).
Definition waits (tr : list event) : nat := length (List.filter is_wait tr).
Definition sleeps (tr : list event) : nat := length (List.filter is_sleep tr).

(** The time slept in a trace, in microseconds. *)
Fixpoint total_sleep (tr : list event) : Z :=
  match tr with
  | [] => 0
  | Sleep micros :: rest => micros + total_sleep rest
  | _ :: rest => total_sleep rest
  end.

(** The remote calls of a trace, in order. *)
Fixpoint calls (tr : list event) : list request :=
  match tr with
  | [] => []
  | Attempt what :: rest => what :: calls rest
  | _ :: rest => calls rest
  end.

(** The cursor of request number [i] of a query: none for the first
    request, the cursor announced with the page before for the others. *)
Definition cursor_at (i : nat) : option string :=
  match i with
  | O => None
  | S _ => Some (Pager.cursor_of i)
  end.

(** The trace of [count] page requests, from request number [first] on. *)
Fixpoint page_requests (db_id : string) (filter_dict sorts : Py.value)
    (first count : nat) : list event :=
  match count with
  | O => []
  | S k =>
      Wait :: Attempt (DatabasesQuery db_id filter_dict sorts (cursor_at first))
        :: page_requests db_id filter_dict sorts (S first) k
  end.

Section Reads.

Context {E : Type} `{Client E}.

(** What [query_database] (with [use_cache]) returns once its fetch has
    ended with [r] in world [w1]: an error as it is, the items as one list
    after storing them under [key], stamped with the clock of [w1]. *)
Definition after_fetch (key : string) (r : result (list Py.value)) (w1 : world)
    : result Py.value * world :=
  match r with
  | Returned items =>
      (Returned (Py.VList items),
       with_cache (LocalCache.set (cache w1) (datetime_now (env w1)) key
                     (Py.VList items) None) w1)
  | Raised e => (Raised e, w1)
  end.

(** [query_database] (with [use_cache]) goes to the remote service from
    world [w]:
    - the first page is requested through the executor, with its
      rate-limiter wait and its attempt;
    - when that request raises, the read raises that error, with one unit
      of fuel or more;
    - when that request answers a page that announces no more, the read
      returns and stores that page, with one unit of fuel or more;
    - whenever the fetch ends within [fuel] page requests, the read returns
      what the fetch gave, with that fuel and with any more, and the trace
      of the fetch starts with the first request. *)
Definition goes_to_remote (fuel : nat) (cfg : Config.t) (database_id : option string)
    (filter_dict sorts : Py.value) (cache_ttl : Z) (w : world) : Prop :=
  let db_id := db_id_of cfg database_id in
  let key := query_key db_id filter_dict sorts in
  let what := DatabasesQuery db_id filter_dict sorts None in
  let first :=
    _execute_with_retry what (databases_query db_id filter_dict sorts None)
      default_max_retries w in
  (exists tl, trace (snd first) = trace w ++ Wait :: Attempt what :: tl) /\
  (forall e,
     fst first = Raised e ->
     query_database (S fuel) cfg database_id filter_dict sorts true cache_ttl w =
       Some (Raised e, snd first)) /\
  (forall response,
     fst first = Returned (Some response) ->
     has_more response = false ->
     query_database (S fuel) cfg database_id filter_dict sorts true cache_ttl w =
       Some (after_fetch key (Returned (results response)) (snd first))) /\
  (forall r w1,
     fetch_pages fuel db_id filter_dict sorts None [] w = Some (r, w1) ->
     (exists tl, trace w1 = trace w ++ Wait :: Attempt what :: tl) /\
     forall fuel', (fuel <= fuel')%nat ->
       query_database fuel' cfg database_id filter_dict sorts true cache_ttl w =
         Some (after_fetch key r w1)).

End Reads.

(** The trace of a batch in which every update succeeds at its first
    attempt: one acquisition and one attempt per item, and the pacing sleep
    between two items. *)
Fixpoint batch_trace (delay : Z) (updates : list update) : list event :=
  match updates with
  | [] => []
  | u :: rest =>
      Wait :: Attempt (PagesUpdate (page_id u) (properties u)) ::
      match rest with
      | [] => []
      | _ => Sleep delay :: batch_trace delay rest
      end
  end.

(** What the scripted remote service answers to an update. *)
Definition updated (u : update) : Py.value :=
  Py.VDict [("id", Py.VStr (page_id u)); ("properties", properties u)].

(** An error the executor retries. *)
Definition retryable (e : exn) : bool := rate_limited e || timed_out e.

(** The backoff the executor takes after attempt [i] failed with [e]. *)
Definition backoff (e : exn) (i : Z) : Z :=
  if rate_limited e then seconds (2 ^ i) else seconds 1.

End Measure.

(** * The property helpers of [src/core/utils.py]

    Texts are taken as ASCII: a character is a byte. *)

Module Utils.

Import Py.

(** The exceptions these helpers can raise, by class. *)
Inductive error : Type :=
| AttributeError
| KeyError
| TypeError.

Inductive outcome (A : Type) : Type :=
| Ok (a : A)
| Err (e : error).
Arguments Ok {A} a.
Arguments Err {A} e.

Definition bind {A B : Type} (x : outcome A) (k : A -> outcome B) : outcome B :=
  match x with
  | Ok a => k a
  | Err e => Err e
  end.

Notation "'let*' x ':=' c1 'in' c2" := (bind c1 (fun x => c2))
  (at level 10, x name, c1 at level 100, c2 at level 200).

(** [v.get(key, default)]: only a dict has [get]. *)
Definition get (v : value) (key : string) (dflt : value) : outcome value :=
  match v with
  | VDict d => Ok (default dflt (assoc_get key d))
  | _ => Err AttributeError
  end.

(** [v[key]] for a text key. *)
Definition item (v : value) (key : string) : outcome value :=
  match v with
  | VDict d =>
      match assoc_get key d with
      | Some x => Ok x
      | None => Err KeyError
      end
  | _ => Err TypeError
  end.

(** [for x in v]: a list gives its items, a dict its keys, a text its
    characters; nothing else can be iterated. *)
Definition iter (v : value) : outcome (list value) :=
  match v with
  | VList l => Ok l
  | VDict d => Ok (map (fun kv => VStr (fst kv)) d)
  | VStr s => Ok (map (fun c => VStr (String c "")) (list_ascii_of_string s))
  | _ => Err TypeError
  end.

(** [len(v)] *)
Definition len (v : value) : outcome Z :=
  match v with
  | VList l => Ok (Z.of_nat (length l))
  | VDict d => Ok (Z.of_nat (length d))
  | VStr s => Ok (Z.of_nat (String.length s))
  | _ => Err TypeError
  end.

(** [v != "text"] *)
Definition differs_from (v : value) (text : string) : bool :=
  match v with
  | VStr s => negb (String.eqb s text)
  | _ => true
  end.

(** [[f(x) for x in xs]] *)
Fixpoint for_each {A B : Type} (f : A -> outcome B) (xs : list A) : outcome (list B) :=
  match xs with
  | [] => Ok []
  | x :: rest => let* y := f x in let* ys := for_each f rest in Ok (y :: ys)
  end.

(** ["".join(parts)]: every part must be a text. *)
Fixpoint join_texts (parts : list value) : outcome string :=
  match parts with
  | [] => Ok ""
  | VStr s :: rest => let* t := join_texts rest in Ok (s +:+ t)
  | _ :: rest => Err TypeError
  end.

(** [get_select_value(prop)] *)
Definition get_select_value (prop : value) : outcome value :=
  if negb (truthy prop) then Ok VNone else
  let* ty := get prop "type" VNone in
  if differs_from ty "select" then Ok VNone else
  let* select := get prop "select" VNone in
  if truthy select then get select "name" VNone else Ok VNone.

(** [get_multi_select_value(prop)] *)
Definition get_multi_select_value (prop : value) : outcome (list value) :=
  if negb (truthy prop) then Ok [] else
  let* ty := get prop "type" VNone in
  if differs_from ty "multi_select" then Ok [] else
  let* options := get prop "multi_select" (VList []) in
  let* items := iter options in
  for_each (fun x => item x "name") items.

(** [get_number_value(prop)] *)
Definition get_number_value (prop : value) : outcome value :=
  if negb (truthy prop) then Ok VNone else
  let* ty := get prop "type" VNone in
  if differs_from ty "number" then Ok VNone else
  get prop "number" VNone.

(** [get_relation_count(prop)] *)
Definition get_relation_count (prop : value) : outcome Z :=
  if negb (truthy prop) then Ok 0 else
  let* ty := get prop "type" VNone in
  if differs_from ty "relation" then Ok 0 else
  let* relation := get prop "relation" (VList []) in
  len relation.

(** The body shared by [get_title_value] and [get_rich_text_value]. *)
Definition get_text_value (kind : string) (prop : value) : outcome value :=
  if negb (truthy prop) then Ok VNone else
  let* ty := get prop "type" VNone in
  if differs_from ty kind then Ok VNone else
  let* array := get prop kind (VList []) in
  if negb (truthy array) then Ok VNone else
  let* items := iter array in
  let* parts := for_each (fun x => get x "plain_text" (VStr "")) items in
  let* text := join_texts parts in
  Ok (VStr text).

(** [get_title_value(prop)] *)
Definition get_title_value (prop : value) : outcome value := get_text_value "title" prop.

(** [get_rich_text_value(prop)] *)
Definition get_rich_text_value (prop : value) : outcome value :=
  get_text_value "rich_text" prop.

(** [create_notion_select(value)] *)
Definition create_notion_select (v : value) : value :=
  VDict [("select", VDict [("name", v)])].

(** [create_notion_multi_select(values)] *)
Definition create_notion_multi_select (values : list value) : value :=
  VDict [("multi_select", VList (map (fun v => VDict [("name", v)]) values))].

(** [create_notion_number(value)] *)
Definition create_notion_number (v : value) : value :=
  VDict [("number", v)].

(** [create_notion_rich_text(text)] *)
Definition create_notion_rich_text (text : value) : value :=
  VDict [("rich_text", VList [VDict [("text", VDict [("content", text)])]])].

(** A property as the remote service returns it: the payload with its
    [type] in front. *)
Definition typed (kind : string) (payload : value) : value :=
  match payload with
  | VDict d => VDict (("type", VStr kind) :: d)
  | _ => payload
  end.

End Utils.

(** * The digest on known inputs *)

Example md5_empty : MD5.hexdigest (Py.encode "") = "d41d8cd98f00b204e9800998ecf8427e".
Proof. vm_compute. reflexivity. Qed.

Example md5_abc : MD5.hexdigest (Py.encode "abc") = "900150983cd24fb0d6963f7d28e17f72".
Proof. vm_compute. reflexivity. Qed.

Example md5_two_blocks :
  MD5.hexdigest (Py.encode
    "aaaaaaaaaaaaaaaaaaaaaaaaaaaaaaaaaaaaaaaaaaaaaaaaaaaaaaaaaaaaaaaaaaaaaa")
  = "0f5c6c4e740bfcc08c3c26ccb2673d46".
Proof. vm_compute. reflexivity. Qed.

(** * [LIKE] on the writes' pattern *)

(** [*] is no wildcard: [query:*] matches that very text (in any case) and
    nothing else; a prefix match takes [%]. *)
Example like_star_is_literal :
  Sql.like "query:a" "query:*" = false /\ Sql.like "QUERY:*" "query:*" = true /\
  Sql.like "query:a" "query:%" = true /\ Sql.like "page:c" "query:%" = false.
Proof. vm_compute. auto. Qed.

(** * Properties of the cache *)

Section CacheFacts.

Import Py LocalCache.

Implicit Types (c : gmap string row) (k : string) (v : value).

Lemma get_set_no_max_age c now k v ttl later :
  get (set c now k v ttl) later k None = Some v.
Proof.
  unfold get, set; cbn. by rewrite lookup_insert_eq.
Qed.

Lemma lookup_cleanup_expired c now k :
  cleanup_expired c now !! k =
  match c !! k with
  | Some r => if expired now r then None else Some r
  | None => None
  end.
Proof.
  unfold cleanup_expired. rewrite map_lookup_filter.
  destruct (c !! k) as [r|]; cbn; [|done].
  destruct (expired now r); case_guard; cbn; congruence.
Qed.

Lemma lookup_invalidate_pattern c pattern k :
  invalidate_pattern c pattern !! k =
  if Sql.like k pattern then None else c !! k.
Proof.
  unfold invalidate_pattern. rewrite map_lookup_filter.
  destruct (c !! k) as [r|]; cbn.
  - destruct (Sql.like k pattern); case_guard; cbn; congruence.
  - by destruct (Sql.like k pattern).
Qed.

Lemma timedelta_pos n : 0 < n -> 0 < timedelta n.
Proof. unfold timedelta; lia. Qed.

Lemma given_Some n : n <> 0 -> given (Some n) = true.
Proof. intros Hn; cbn. by apply negb_true_iff, Z.eqb_neq. Qed.

(** The read-time test of [get]: strict, and against [created_at]. *)
Lemma get_set_max_age c t0 k v ttl now max_age :
  max_age <> 0 ->
  get (set c t0 k v ttl) now k (Some max_age) =
  if now - t0 <? timedelta max_age then Some v else None.
Proof.
  intros Hn. unfold get. rewrite given_Some by done.
  unfold set; rewrite lookup_insert_eq; cbn.
  destruct (Z.ltb_spec (now - timedelta max_age) t0),
           (Z.ltb_spec (now - t0) (timedelta max_age)); (done || lia).
Qed.

End CacheFacts.

(** C1, as the specification states it, fails: an entry stored with a ttl of
    10 seconds is still returned by [get] with no [max_age] one second after
    its expiry instant. *)
Lemma get_returns_expired_entry :
  let c := LocalCache.set ∅ 0 "k" (Py.VInt 7) (Some 10) in
  let later := LocalCache.timedelta 11 in
  (exists r, c !! "k" = Some r /\ LocalCache.expired later r = true) /\
  LocalCache.get c later "k" None = Some (Py.VInt 7).
Proof.
  split; [|by vm_compute].
  eexists; split; [by vm_compute|by vm_compute].
Qed.

(** C1 (amended): after [set(k, v, ttl)] with a positive ttl, [get] with no
    [max_age] makes no expiration check and returns [v] at every later
    instant; the expiry instant is enforced by the sweep [cleanup_expired]
    alone: once the sweep has run after the expiry instant, [get] misses,
    and a sweep that runs no later than the expiry instant keeps the
    entry. *)
Theorem get_without_max_age_ignores_expiry
    (c : gmap string LocalCache.row) (now : Z) (k : string) (v : Py.value)
    (ttl later : Z) :
  0 < ttl ->
  let c' := LocalCache.set c now k v (Some ttl) in
  LocalCache.get c' later k None = Some v /\
  (now + LocalCache.timedelta ttl < later ->
   forall t, LocalCache.get (LocalCache.cleanup_expired c' later) t k None = None) /\
  (later <= now + LocalCache.timedelta ttl ->
   forall t, LocalCache.get (LocalCache.cleanup_expired c' later) t k None = Some v).
Proof.
  intros Httl c'. split; [apply get_set_no_max_age|].
  assert (Hrow : c' !! k = Some (LocalCache.Row v now (Some (now + LocalCache.timedelta ttl)))).
  { unfold c', LocalCache.set. rewrite lookup_insert_eq.
    by rewrite given_Some by lia. }
  split; intros Hlt t; unfold LocalCache.get; cbn;
    rewrite lookup_cleanup_expired, Hrow; unfold LocalCache.expired; cbn.
  - by destruct (Z.ltb_spec (now + LocalCache.timedelta ttl) later); [|lia].
  - by destruct (Z.ltb_spec (now + LocalCache.timedelta ttl) later); [lia|].
Qed.

Lemma get_without_max_age_ignores_expiry_witness :
  let c' := LocalCache.set ∅ 0 "k" (Py.VInt 7) (Some 10) in
  LocalCache.get c' (LocalCache.timedelta 11) "k" None = Some (Py.VInt 7) /\
  (0 + LocalCache.timedelta 10 < LocalCache.timedelta 11 ->
   forall t, LocalCache.get (LocalCache.cleanup_expired c' (LocalCache.timedelta 11)) t "k" None = None) /\
  (LocalCache.timedelta 11 <= 0 + LocalCache.timedelta 10 ->
   forall t, LocalCache.get (LocalCache.cleanup_expired c' (LocalCache.timedelta 11)) t "k" None
             = Some (Py.VInt 7)).
Proof.
  apply (get_without_max_age_ignores_expiry ∅ 0 "k" (Py.VInt 7) 10 (LocalCache.timedelta 11)).
  lia.
Defined.

(** C5, as the specification states it, fails at the boundary: an entry
    exactly [max_age] old passes the inclusive test
    [now - created_at <= max_age] and yet [get] misses. *)
Lemma get_misses_at_exact_max_age :
  let c := LocalCache.set ∅ 0 "k" (Py.VInt 7) None in
  let now := LocalCache.timedelta 5 in
  now - 0 <= LocalCache.timedelta 5 /\
  LocalCache.get c now "k" (Some 5) = None.
Proof. split; [by vm_compute|by vm_compute]. Qed.

(** C5 (amended): after [set(k, v, ttl=None)], [get(k, max_age=5)] issued at
    once returns [v] and issued 6 seconds later misses; in general, for a
    non-zero [max_age], the read-time test is the strict
    [now - created_at < max_age], against the creation instant of the entry:
    an entry exactly [max_age] old is a miss. *)
Theorem get_max_age_is_strict
    (c : gmap string LocalCache.row) (t0 : Z) (k : string) (v : Py.value)
    (now max_age : Z) :
  max_age <> 0 ->
  let c' := LocalCache.set c t0 k v None in
  LocalCache.get c' now k (Some max_age) =
    (if now - t0 <? LocalCache.timedelta max_age then Some v else None) /\
  LocalCache.get c' t0 k (Some 5) = Some v /\
  LocalCache.get c' (t0 + LocalCache.timedelta 6) k (Some 5) = None /\
  LocalCache.get c' (t0 + LocalCache.timedelta 5) k (Some 5) = None.
Proof.
  intros Hn c'. unfold c'.
  rewrite !get_set_max_age by done.
  repeat split.
  - by replace (t0 - t0) with 0 by lia.
  - by replace (t0 + LocalCache.timedelta 6 - t0) with (LocalCache.timedelta 6) by lia.
  - by replace (t0 + LocalCache.timedelta 5 - t0) with (LocalCache.timedelta 5) by lia.
Qed.

Lemma get_max_age_is_strict_witness :
  let c' := LocalCache.set ∅ 100 "k" (Py.VStr "v") None in
  LocalCache.get c' 4000100 "k" (Some 5) =
    (if 4000100 - 100 <? LocalCache.timedelta 5 then Some (Py.VStr "v") else None) /\
  LocalCache.get c' 100 "k" (Some 5) = Some (Py.VStr "v") /\
  LocalCache.get c' (100 + LocalCache.timedelta 6) "k" (Some 5) = None /\
  LocalCache.get c' (100 + LocalCache.timedelta 5) "k" (Some 5) = None.
Proof.
  apply (get_max_age_is_strict ∅ 100 "k" (Py.VStr "v") 4000100 5). lia.
Defined.

(** * Properties of the cache keys *)

Section KeyFacts.

Import Py LocalCache Contract.

Lemma hex_digit_hex n : 0 <= n < 16 -> In (hex_digit n) hex_chars.
Proof.
  intros Hn. replace n with (Z.of_nat (Z.to_nat n)) by lia.
  assert (Hm : (Z.to_nat n < 16)%nat) by lia.
  revert Hm. generalize (Z.to_nat n) as m. intros m Hm.
  do 16 (destruct m as [|m]; [vm_compute; tauto|]).
  lia.
Qed.

Lemma byte_high_nibble x : 0 <= Z.land x 255 / 16 < 16.
Proof.
  change 255 with (Z.ones 8). rewrite Z.land_ones by lia.
  pose proof (Z.mod_pos_bound x (2 ^ 8) ltac:(lia)) as Hb.
  split; [apply Z.div_pos; lia|apply Z.div_lt_upper_bound; lia].
Qed.

(** A digest in hexadecimal starts with a hexadecimal digit. *)
Lemma hexdigest_head msg :
  exists d rest, In d hex_chars /\ MD5.hexdigest msg = String d rest.
Proof.
  unfold MD5.hexdigest, MD5.digest.
  destruct (MD5.blocks _ _ _) as [[[A B] C] D].
  cbn [MD5.le_bytes seq List.map app fold_right].
  unfold hex2 at 1. cbn [String.append].
  eexists _, _. split; [|reflexivity].
  apply hex_digit_hex, byte_high_nibble.
Qed.

Lemma generate_key_head args :
  exists d rest, In d hex_chars /\ generate_key args = String d rest.
Proof. apply hexdigest_head. Qed.

Ltac hex_cases H :=
  cbn in H; repeat (destruct H as [H|H]; [subst; try by vm_compute|]); try done.

(** No generated key is matched by the pattern the writes delete with. *)
Lemma generate_key_not_like_query args :
  Sql.like (generate_key args) "query:*" = false /\
  Sql.like (generate_key args) "query:%" = false.
Proof.
  destruct (generate_key_head args) as (d & rest & Hd & ->).
  unfold Sql.like. cbn [list_ascii_of_string Sql.like_chars].
  change (Ascii.eqb "q" "%") with false. change (Ascii.eqb "q" "_") with false.
  cbn match.
  assert (Hq : Ascii.eqb (Sql.lower "q") (Sql.lower d) = false) by hex_cases Hd.
  rewrite Hq. done.
Qed.

(** No generated key is a literal [page:<id>] key. *)
Lemma generate_key_not_page args page_id :
  generate_key args <> "page:" +:+ page_id.
Proof.
  destruct (generate_key_head args) as (d & rest & Hd & ->).
  cbn. intros [= -> _]. hex_cases Hd.
Qed.

(** Arguments that are [None] leave no trace in the key. *)
Lemma generate_key_drops_None (pre post : list value) :
  generate_key (pre ++ VNone :: post) = generate_key (pre ++ post).
Proof.
  unfold generate_key. by rewrite !List.filter_app.
Qed.

End KeyFacts.

(** * Properties of the retrying executor *)

Module RetryFacts.

Import Py NotionAPI Contract.

Section WithClient.

Context {E : Type} `{Client E} {A : Type}.
Variables (what : request) (func : E -> result A * E).

Lemma retry_loop_S max_retries remaining attempt (w : world) :
  retry_loop what func max_retries (S remaining) attempt w =
  let w1 := wait w in
  let '(r, e2) := func (env w1) in
  let w2 := emit (Attempt what) (with_env e2 w1) in
  match r with
  | Returned a => (Returned (Some a), w2)
  | Raised (APIResponseError code message) =>
      if String.eqb code "rate_limited" && (attempt <? max_retries - 1) then
        retry_loop what func max_retries remaining (attempt + 1)
          (sleep (seconds (2 ^ attempt)) w2)
      else (Raised (APIResponseError code message), w2)
  | Raised (RequestTimeoutError message) =>
      if attempt <? max_retries - 1 then
        retry_loop what func max_retries remaining (attempt + 1) (sleep (seconds 1) w2)
      else (Raised (RequestTimeoutError message), w2)
  | Raised (OtherError message) => (Raised (OtherError message), w2)
  end.
Proof. reflexivity. Qed.

Lemma retry_loop_cache max_retries remaining attempt (w : world) :
  cache (snd (retry_loop what func max_retries remaining attempt w)) = cache w.
Proof.
  revert attempt w. induction remaining as [|k IH]; intros attempt w; [done|].
  cbn [retry_loop].
  destruct (func (env (wait w))) as [[a|[code msg|msg|msg]] e2]; cbn [snd]; try done.
  - destruct (_ && _); [by rewrite IH|done].
  - destruct (_ <? _); [by rewrite IH|done].
Qed.

(** The loop never looks at the cache. *)
Lemma retry_loop_with_cache c max_retries remaining attempt (w : world) :
  retry_loop what func max_retries remaining attempt (with_cache c w) =
  (fst (retry_loop what func max_retries remaining attempt w),
   with_cache c (snd (retry_loop what func max_retries remaining attempt w))).
Proof.
  revert attempt w. induction remaining as [|k IH]; intros attempt w; [done|].
  cbn [retry_loop].
  change (env (wait (with_cache c w))) with (env (wait w)).
  destruct (func (env (wait w))) as [[a|[code msg|msg|msg]] e2]; try done.
  - destruct (_ && _); [|done].
    exact (IH _ (sleep _ (emit _ (with_env e2 (wait w))))).
  - destruct (_ <? _); [|done].
    exact (IH _ (sleep _ (emit _ (with_env e2 (wait w))))).
Qed.

(** The trace only grows, and an iteration starts with the rate limiter
    and one attempt. *)
Lemma retry_loop_trace max_retries remaining attempt (w : world) :
  exists tl,
    trace (snd (retry_loop what func max_retries remaining attempt w)) = trace w ++ tl /\
    (remaining <> O -> exists tl', tl = Wait :: Attempt what :: tl').
Proof.
  revert attempt w. induction remaining as [|k IH]; intros attempt w.
  { exists []. cbn. by rewrite app_nil_r. }
  cbn [retry_loop].
  destruct (func (env (wait w))) as [[a|[code msg|msg|msg]] e2]; cbn [snd].
  - exists [Wait; Attempt what]. cbn. rewrite <- app_assoc. eauto.
  - destruct (_ && _).
    + destruct (IH (attempt + 1) (sleep (seconds (2 ^ attempt))
                  (emit (Attempt what) (with_env e2 (wait w))))) as (tl & -> & _).
      eexists (Wait :: Attempt what :: Sleep _ :: tl). cbn.
      rewrite <- !app_assoc. cbn. eauto.
    + exists [Wait; Attempt what]. cbn. rewrite <- app_assoc. eauto.
  - destruct (_ <? _).
    + destruct (IH (attempt + 1) (sleep (seconds 1)
                  (emit (Attempt what) (with_env e2 (wait w))))) as (tl & -> & _).
      eexists (Wait :: Attempt what :: Sleep _ :: tl). cbn.
      rewrite <- !app_assoc. cbn. eauto.
    + exists [Wait; Attempt what]. cbn. rewrite <- app_assoc. eauto.
  - exists [Wait; Attempt what]. cbn. rewrite <- app_assoc. eauto.
Qed.

(** With a positive budget the executor never falls out of its loop. *)
Lemma retry_loop_not_None max_retries k attempt (w : world) :
  attempt + Z.of_nat k = max_retries - 1 ->
  fst (retry_loop what func max_retries (S k) attempt w) <> Returned None.
Proof.
  revert attempt w.
  induction k as [|k IH]; intros attempt w Hk; rewrite retry_loop_S; cbn zeta.
  - destruct (func (env (wait w))) as [[a|[code msg|msg|msg]] e2]; cbn; try done.
    + destruct (Z.ltb_spec attempt (max_retries - 1)); [lia|].
      by rewrite andb_false_r.
    + by destruct (Z.ltb_spec attempt (max_retries - 1)); [lia|].
  - destruct (func (env (wait w))) as [[a|[code msg|msg|msg]] e2]; try done.
    + destruct (_ && _); [|done]. apply IH. lia.
    + destruct (_ <? _); [|done]. apply IH. lia.
Qed.


(** A fatal error on the first attempt ends the loop at once. *)
Lemma retry_loop_fatal (e : exn) max_retries k attempt (w : world) :
  fst (func (env (wait w))) = Raised e ->
  fatal e = true ->
  retry_loop what func max_retries (S k) attempt w =
  (Raised e, emit (Attempt what) (with_env (snd (func (env (wait w)))) (wait w))).
Proof.
  intros Hf He. cbn [retry_loop].
  destruct (func (env (wait w))) as [r e2]; cbn in Hf; subst r; cbn [snd].
  destruct e as [code msg|msg|msg]; try done.
  unfold fatal in He; cbn in He.
  rewrite andb_true_r in He. apply negb_true_iff in He. by rewrite He.
Qed.

End WithClient.

End RetryFacts.


(** * Properties of the façade *)

Module FacadeFacts.

Import Py LocalCache NotionAPI.

Section WithClient.

Context {E : Type} `{Client E}.

Lemma execute_cache {A : Type} what (func : E -> result A * E) max_retries (w : world) :
  cache (snd (_execute_with_retry what func max_retries w)) = cache w.
Proof. apply RetryFacts.retry_loop_cache. Qed.

Lemma execute_with_cache {A : Type} what (func : E -> result A * E) max_retries c
    (w : world) :
  _execute_with_retry what func max_retries (with_cache c w) =
  (fst (_execute_with_retry what func max_retries w),
   with_cache c (snd (_execute_with_retry what func max_retries w))).
Proof. apply RetryFacts.retry_loop_with_cache. Qed.

Lemma execute_trace {A : Type} what (func : E -> result A * E) (w : world) :
  exists tl,
    trace (snd (_execute_with_retry what func default_max_retries w)) =
    trace w ++ Wait :: Attempt what :: tl.
Proof.
  destruct (RetryFacts.retry_loop_trace what func default_max_retries
              (Z.to_nat default_max_retries) 0 w) as (tl & Htl & Hhead).
  destruct Hhead as [tl' ->]; [done|]. by exists tl'.
Qed.

(** What a write does to the cache: both deletions after a success,
    nothing after a failure. *)
Lemma update_page_cache page_id properties (w : world) :
  cache (snd (update_page page_id properties w)) =
  match fst (update_page page_id properties w) with
  | Returned _ =>
      invalidate_pattern (invalidate (cache w) ("page:" +:+ page_id)) "query:*"
  | Raised _ => cache w
  end.
Proof.
  unfold update_page.
  pose proof (execute_cache (PagesUpdate page_id properties)
                (pages_update page_id properties) default_max_retries w) as Hc.
  destruct (_execute_with_retry _ _ _ w) as [[res|e] w1]; cbn in *; congruence.
Qed.

(** The entries stored under generated keys survive every write. *)
Lemma update_page_keeps_generated_keys page_id properties (w : world) args :
  cache (snd (update_page page_id properties w)) !! generate_key args =
  cache w !! generate_key args.
Proof.
  rewrite update_page_cache.
  destruct (fst (update_page page_id properties w)); [|done].
  rewrite lookup_invalidate_pattern.
  destruct (generate_key_not_like_query args) as [-> _].
  unfold invalidate. rewrite lookup_delete_ne; [done|].
  intros Heq. by apply (generate_key_not_page args page_id).
Qed.

Lemma fetch_pages_with_cache c fuel db_id filter_dict sorts start_cursor acc (w : world) :
  fetch_pages fuel db_id filter_dict sorts start_cursor acc (with_cache c w) =
  match fetch_pages fuel db_id filter_dict sorts start_cursor acc w with
  | Some (r, w') => Some (r, with_cache c w')
  | None => None
  end.
Proof.
  revert start_cursor acc w.
  induction fuel as [|fuel IH]; intros start_cursor acc w; [done|].
  cbn [fetch_pages]. rewrite execute_with_cache.
  destruct (_execute_with_retry _ _ _ w) as [[[response|]|e] w1]; cbn; try done.
  destruct (has_more response); [apply IH|done].
Qed.

Lemma fetch_pages_cache fuel db_id filter_dict sorts start_cursor acc (w : world) r w' :
  fetch_pages fuel db_id filter_dict sorts start_cursor acc w = Some (r, w') ->
  cache w' = cache w.
Proof.
  revert start_cursor acc w.
  induction fuel as [|fuel IH]; intros start_cursor acc w; [done|].
  cbn [fetch_pages].
  pose proof (execute_cache (DatabasesQuery db_id filter_dict sorts start_cursor)
                (databases_query db_id filter_dict sorts start_cursor)
                default_max_retries w) as Hc.
  destruct (_execute_with_retry _ _ _ w) as [[[response|]|e] w1]; cbn in Hc;
    try (intros [= <- <-]; done).
  destruct (has_more response); [|intros [= <- <-]; done].
  intros Hrec. apply IH in Hrec. congruence.
Qed.

(** A fetch that ends has called the remote service. *)
Lemma fetch_pages_trace fuel db_id filter_dict sorts start_cursor acc (w : world) r w' :
  fetch_pages fuel db_id filter_dict sorts start_cursor acc w = Some (r, w') ->
  exists tl,
    trace w' = trace w ++
      Wait :: Attempt (DatabasesQuery db_id filter_dict sorts start_cursor) :: tl.
Proof.
  revert start_cursor acc w.
  induction fuel as [|fuel IH]; intros start_cursor acc w; [done|].
  cbn [fetch_pages].
  destruct (execute_trace (DatabasesQuery db_id filter_dict sorts start_cursor)
              (databases_query db_id filter_dict sorts start_cursor) w) as [tl Htl].
  destruct (_execute_with_retry _ _ _ w) as [[[response|]|e] w1]; cbn in Htl;
    try (intros [= <- <-]; eauto).
  destruct (has_more response); [|intros [= <- <-]; eauto].
  intros Hrec. apply IH in Hrec as [tl' ->]. rewrite Htl.
  rewrite <- app_assoc. cbn. eauto.
Qed.

(** A truthy cached value is served without any remote call. *)
Lemma query_database_hit fuel cfg database_id filter_dict sorts cache_ttl (w : world) v :
  cache_hit (get (cache w) (datetime_now (env w))
               (query_key (db_id_of cfg database_id) filter_dict sorts)
               (Some cache_ttl)) = Some v ->
  query_database fuel cfg database_id filter_dict sorts true cache_ttl w =
  Some (Returned v, w).
Proof. intros Hhit. unfold query_database. by rewrite Hhit. Qed.

End WithClient.

End FacadeFacts.

(** * Reads that go to the remote service *)

Module RemoteReads.

Import Py LocalCache NotionAPI Contract Measure FacadeFacts.

Section WithClient.

Context {E : Type} `{Client E}.

(** A call that succeeds at its first attempt is made once. *)
Lemma execute_first_success {A : Type} what (func : E -> result A * E)
    max_retries (w : world) (a : A) :
  1 <= max_retries ->
  fst (func (env (wait w))) = Returned a ->
  _execute_with_retry what func max_retries w =
  (Returned (Some a),
   emit (Attempt what) (with_env (snd (func (env (wait w)))) (wait w))).
Proof.
  intros Hn Hok. unfold _execute_with_retry.
  destruct (Z.to_nat max_retries) as [|k] eqn:Hk; [lia|].
  rewrite RetryFacts.retry_loop_S. cbn zeta.
  by destruct (func (env (wait w))) as [r e2]; cbn in Hok; subst r.
Qed.

(** A fetch that ends within some fuel ends the same way with more. *)
Lemma fetch_pages_more_fuel fuel fuel' db_id filter_dict sorts start_cursor acc
    (w : world) x :
  fetch_pages fuel db_id filter_dict sorts start_cursor acc w = Some x ->
  (fuel <= fuel')%nat ->
  fetch_pages fuel' db_id filter_dict sorts start_cursor acc w = Some x.
Proof.
  revert fuel' start_cursor acc w.
  induction fuel as [|fuel IH]; intros fuel' start_cursor acc w; [done|].
  intros Hfetch Hle. destruct fuel' as [|fuel']; [lia|].
  revert Hfetch. cbn [fetch_pages].
  destruct (_execute_with_retry _ _ _ w) as [[[response|]|e] w1]; try done.
  destruct (has_more response); [|done].
  intros Hrec. apply IH; [done|lia].
Qed.

(** A read that misses the cache goes to the remote service. *)
Lemma miss_goes_to_remote fuel cfg database_id filter_dict sorts cache_ttl (w : world) :
  cache_hit (get (cache w) (datetime_now (env w))
               (query_key (db_id_of cfg database_id) filter_dict sorts)
               (Some cache_ttl)) = None ->
  goes_to_remote fuel cfg database_id filter_dict sorts cache_ttl w.
Proof.
  intros Hmiss. unfold goes_to_remote. cbn zeta.
  split; [apply execute_trace|]. split; [|split].
  - intros e He. unfold query_database. rewrite Hmiss. cbn [fetch_pages].
    by destruct (_execute_with_retry _ _ _ w) as [r w1]; cbn in He; subst r.
  - intros response Hr Hmore. unfold query_database. rewrite Hmiss. cbn [fetch_pages].
    destruct (_execute_with_retry _ _ _ w) as [r w1]; cbn in Hr; subst r.
    by rewrite Hmore.
  - intros r w1 Hfetch. split; [by eapply fetch_pages_trace|].
    intros fuel' Hle. unfold query_database. rewrite Hmiss.
    rewrite (fetch_pages_more_fuel _ _ _ _ _ _ _ _ _ Hfetch Hle).
    by destruct r.
Qed.

End WithClient.

End RemoteReads.

(** * The claims about the retrying executor *)

Section RetryClaims.

Import Py NotionAPI Contract RetryFacts.


(** C6: a call whose first attempt fails with a fatal error is attempted
    exactly once, whatever the budget (of at least one attempt): the error
    is raised at once, with no sleep and no second attempt. *)
Theorem execute_with_retry_fatal_once
    {E : Type} `{Client E} {A : Type} (what : request)
    (func : E -> result A * E) (e : exn) (max_retries : Z) (w : world) :
  1 <= max_retries ->
  fst (func (env (wait w))) = Raised e ->
  fatal e = true ->
  fst (_execute_with_retry what func max_retries w) = Raised e /\
  trace (snd (_execute_with_retry what func max_retries w)) =
    trace w ++ [Wait; Attempt what] /\
  cache (snd (_execute_with_retry what func max_retries w)) = cache w.
Proof.
  intros Hn Hf He. unfold _execute_with_retry.
  destruct (Z.to_nat max_retries) as [|k] eqn:Hk; [lia|].
  rewrite (retry_loop_fatal what func e max_retries k 0 w Hf He).
  cbn. by rewrite <- app_assoc.
Qed.

End RetryClaims.


Lemma execute_with_retry_fatal_once_witness :
  let what := NotionAPI.PagesUpdate "42" Py.VNone in
  let w := Sim.start ∅ 0 [Sim.Fail Sim.validation_error] (Sim.Ok [] false) in
  let out := NotionAPI._execute_with_retry what (NotionAPI.pages_update "42" Py.VNone) 5 w in
  fst out = NotionAPI.Raised Sim.validation_error /\
  NotionAPI.trace (snd out) = NotionAPI.trace w ++ [NotionAPI.Wait; NotionAPI.Attempt what] /\
  NotionAPI.cache (snd out) = NotionAPI.cache w.
Proof.
  intros what w out.
  apply (execute_with_retry_fatal_once what (NotionAPI.pages_update "42" Py.VNone)
           Sim.validation_error 5 w); [lia | reflexivity | reflexivity].
Defined.

(** * The claims about the cache keys *)

(** C4: identical identity tuples give identical keys, but the keys carry no
    namespace: a key is an MD5 digest in hexadecimal, two query keys already
    differ in their first character, and neither the pattern [query:*] that
    the writes delete with nor the prefix pattern [query:%] matches any
    generated key, so deleting by that pattern leaves every entry stored
    under a generated key in place. *)
Theorem generate_key_has_no_namespace :
  (forall args1 args2, args1 = args2 ->
     LocalCache.generate_key args1 = LocalCache.generate_key args2) /\
  NotionAPI.query_key "db1" Py.VNone Py.VNone = "e37598d65d037cf699c1cb3b403224e1" /\
  NotionAPI.query_key "db1" (Py.VStr "F") Py.VNone = "088198c5daaf871f523b0ac57e498a9e" /\
  NotionAPI.page_key "42" = "5706ff46592d892370d75dde279946d3" /\
  (forall args,
     Sql.like (LocalCache.generate_key args) "query:*" = false /\
     Sql.like (LocalCache.generate_key args) "query:%" = false) /\
  (forall (c : gmap string LocalCache.row) args,
     LocalCache.invalidate_pattern c "query:*" !! LocalCache.generate_key args =
     c !! LocalCache.generate_key args).
Proof.
  split; [by intros ? ? ->|].
  do 3 (split; [by vm_compute|]).
  split; [apply generate_key_not_like_query|].
  intros c args. rewrite lookup_invalidate_pattern.
  by destruct (generate_key_not_like_query args) as [-> _].
Qed.

(** C9: dropping the [None] arguments before joining makes distinct
    identity tuples collide: a query with filter [F] and no sorts and a
    query with no filter and sorts [F] get the same key, so the second is
    answered from the result cached for the first. *)
Theorem query_keys_collide
    {E : Type} `{NotionAPI.Client E} (fuel : nat) (cfg : Config.t)
    (database_id : option string) (F : Py.value) (cache_ttl : Z)
    (w : NotionAPI.world) :
  F <> Py.VNone ->
  let db := Py.VStr (NotionAPI.db_id_of cfg database_id) in
  [Py.VStr "query"; db; F; Py.VNone] <> [Py.VStr "query"; db; Py.VNone; F] /\
  LocalCache.generate_key [Py.VStr "query"; db; F; Py.VNone] =
    LocalCache.generate_key [Py.VStr "query"; db; Py.VNone; F] /\
  (forall v,
     NotionAPI.cache_hit
       (LocalCache.get (NotionAPI.cache w) (NotionAPI.datetime_now (NotionAPI.env w))
          (NotionAPI.query_key (NotionAPI.db_id_of cfg database_id) F Py.VNone)
          (Some cache_ttl)) = Some v ->
     NotionAPI.query_database fuel cfg database_id Py.VNone F true cache_ttl w =
       Some (NotionAPI.Returned v, w)).
Proof.
  intros HF db.
  assert (Hkey : LocalCache.generate_key [Py.VStr "query"; db; F; Py.VNone] =
                 LocalCache.generate_key [Py.VStr "query"; db; Py.VNone; F]).
  { change (LocalCache.generate_key ([Py.VStr "query"; db; F] ++ Py.VNone :: []) =
            LocalCache.generate_key ([Py.VStr "query"; db] ++ Py.VNone :: [F])).
    by rewrite !generate_key_drops_None. }
  split; [|split; [exact Hkey|]].
  - intros [= Heq]. by apply HF.
  - intros v Hhit. apply FacadeFacts.query_database_hit.
    unfold NotionAPI.query_key in *. fold db. by rewrite <- Hkey.
Qed.

Lemma query_keys_collide_witness :
  let F := Py.VDict [("property", Py.VStr "Status")] in
  let w0 := Sim.start ∅ 0 [Sim.Ok [Py.VStr "filtered"] false] (Sim.Fail Sim.validation_error) in
  exists w1,
    NotionAPI.query_database 5 (Sim.config true) None F Py.VNone true 300 w0 =
      Some (NotionAPI.Returned (Py.VList [Py.VStr "filtered"]), w1) /\
    NotionAPI.query_database 5 (Sim.config true) None Py.VNone F true 300 w1 =
      Some (NotionAPI.Returned (Py.VList [Py.VStr "filtered"]), w1).
Proof.
  intros F w0.
  destruct (NotionAPI.query_database 5 (Sim.config true) None F Py.VNone true 300 w0)
    as [[r w1]|] eqn:Hrun; vm_compute in Hrun; [|discriminate].
  injection Hrun as <- <-.
  eexists; split; [reflexivity|].
  refine (proj2 (proj2 (query_keys_collide 5 (Sim.config true) None F 300 _ _)) _ _);
    [discriminate | vm_compute; reflexivity].
Defined.

(** * The claims about the façade *)

Module FacadeClaims.

Import Py LocalCache NotionAPI Contract FacadeFacts.

Section WithClient.

Context {E : Type} `{Client E}.

Lemma batch_loop_run delay total updates i acc (w : world) :
  i + Z.of_nat (length updates) = total + 1 ->
  exists entries w',
    batch_loop total delay i updates acc w = (acc ++ entries, w') /\
    batch_run delay w updates entries w'.
Proof.
  revert i acc w. induction updates as [|u rest IH]; intros i acc w Hi.
  { exists [], w. cbn. rewrite app_nil_r. split; [done|constructor]. }
  cbn [batch_loop].
  pose proof (update_page_cache (page_id u) (properties u) w) as Hc.
  destruct (update_page (page_id u) (properties u) w) as [[res|e] w1] eqn:Hu;
    cbn in Hc.
  all: assert (Hpace : (if i <? total then sleep delay w1 else w1) =
                       match rest with [] => w1 | _ => sleep delay w1 end)
         by (destruct rest; cbn [length] in Hi;
             [rewrite (proj2 (Z.ltb_ge i total)) by lia
             |rewrite (proj2 (Z.ltb_lt i total)) by lia]; done).
  all: rewrite Hpace.
  all: edestruct (IH (i + 1)) as (entries & w' & -> & Hrun);
         [cbn [length] in Hi; lia|].
  all: eexists (_ :: entries), w'; rewrite <- app_assoc; split; [done|].
  - by eapply batch_success.
  - by eapply batch_failure.
Qed.

Lemma batch_run_length delay (w w' : world) updates entries :
  batch_run delay w updates entries w' -> length entries = length updates.
Proof. induction 1; cbn; congruence. Qed.

Lemma batch_run_page_ids delay (w w' : world) updates entries :
  batch_run delay w updates entries w' ->
  Forall2 (fun u entry =>
             dict_get "page_id" entry = Some (VStr (page_id u)) /\
             ((exists res, entry = success_entry u res /\
                           dict_get "success" entry = Some (VBool true)) \/
              (exists e, entry = failure_entry u e /\
                         dict_get "success" entry = Some (VBool false) /\
                         dict_get "error" entry = Some (VStr (exn_str e)))))
    updates entries.
Proof.
  induction 1; constructor; try done.
  - split; [done|]. left. by eexists.
  - split; [done|]. right. by eexists.
Qed.

End WithClient.

(** C7: a batch of [n] updates is processed in order through [update_page];
    a failing item does not stop the items after it; the result has exactly
    [n] entries, in input order, each reporting its item's success with the
    result or its failure with the error; the cache is invalidated for the
    successful items only. *)
Theorem batch_update_pages_reports_every_item
    {E : Type} `{Client E} (updates : list update) (delay : Z) (w : world) :
  batch_run delay w updates
    (fst (batch_update_pages updates delay w))
    (snd (batch_update_pages updates delay w)) /\
  length (fst (batch_update_pages updates delay w)) = length updates /\
  Forall2 (fun u entry =>
             dict_get "page_id" entry = Some (VStr (page_id u)) /\
             ((exists res, entry = success_entry u res /\
                           dict_get "success" entry = Some (VBool true)) \/
              (exists e, entry = failure_entry u e /\
                         dict_get "success" entry = Some (VBool false) /\
                         dict_get "error" entry = Some (VStr (exn_str e)))))
    updates (fst (batch_update_pages updates delay w)).
Proof.
  unfold batch_update_pages.
  destruct (batch_loop_run delay (Z.of_nat (length updates)) updates 1 [] w)
    as (entries & w' & -> & Hrun); [lia|].
  cbn [app fst snd]. split; [done|]. split.
  - by eapply batch_run_length.
  - by eapply batch_run_page_ids.
Qed.

(** The batch of the specification: three items, the second of which is
    rejected. *)
Example batch_partial_failure :
  let w := Sim.start ∅ 0 [Sim.Ok [] false; Sim.Fail Sim.validation_error; Sim.Ok [] false]
             (Sim.Fail Sim.validation_error) in
  let updates := [Update "p1" (VStr "x"); Update "p2" (VStr "y"); Update "p3" (VStr "z")] in
  let out := batch_update_pages updates default_delay_between_requests w in
  map (dict_get "success") (fst out) =
    [Some (VBool true); Some (VBool false); Some (VBool true)] /\
  map (dict_get "error") (fst out) = [None; Some (VStr "bad request"); None] /\
  trace (snd out) =
    [Wait; Attempt (PagesUpdate "p1" (VStr "x")); Sleep 400000;
     Wait; Attempt (PagesUpdate "p2" (VStr "y")); Sleep 400000;
     Wait; Attempt (PagesUpdate "p3" (VStr "z"))].
Proof. by vm_compute. Qed.




(** The refetch of C10 on a concrete run: the empty list cached for a query
    is skipped, the remote service is asked again and its answer is
    returned. *)
Example empty_cached_query_is_refetched :
  let c := set ∅ 0 (query_key "db1" VNone VNone) (VList []) None in
  let w := Sim.start c 0 [Sim.Ok [VStr "row"] false] (Sim.Fail Sim.validation_error) in
  get (cache w) 0 (query_key "db1" VNone VNone) (Some 300) = Some (VList []) /\
  option_map observed (query_database 5 (Sim.config true) None VNone VNone true 300 w) =
    Some (Returned (VList [VStr "row"]),
          Sim.Env 0 [] (Sim.Fail Sim.validation_error),
          [Wait; Attempt (DatabasesQuery "db1" VNone VNone None)]).
Proof. by vm_compute. Qed.

(** C8: the configuration's caching switch is parsed and never consulted.
    With [cache_enabled] off, a read with the default [use_cache] still
    stores its result in the cache, and the next read is answered from the
    cache without any remote call: neither the lookup nor the store is
    skipped. *)
Lemma cache_enabled_off_still_caches :
  let cfg := Sim.config false in
  let w0 := Sim.start ∅ 0 [Sim.Ok [VStr "row"] false] (Sim.Fail Sim.validation_error) in
  Config.cache_enabled cfg = false /\
  exists w1,
    query_database 5 cfg None VNone VNone default_use_cache default_cache_ttl w0 =
      Some (Returned (VList [VStr "row"]), w1) /\
    get (cache w1) 0 (query_key "db1" VNone VNone) None = Some (VList [VStr "row"]) /\
    query_database 5 cfg None VNone VNone default_use_cache default_cache_ttl w1 =
      Some (Returned (VList [VStr "row"]), w1) /\
    trace w1 = [Wait; Attempt (DatabasesQuery "db1" VNone VNone None)].
Proof.
  intros cfg w0. split; [done|].
  destruct (query_database 5 cfg None VNone VNone default_use_cache default_cache_ttl w0)
    as [[r w1]|] eqn:Hrun; vm_compute in Hrun; [|discriminate].
  injection Hrun as <- <-.
  eexists; split; [reflexivity|]. by vm_compute.
Qed.

(** The gate the read path does have is the [use_cache] argument of the
    call: with [use_cache] false the run does not depend on what the cache
    holds and hands the cache on as it received it. *)
Lemma use_cache_false_ignores_the_cache
    {E : Type} `{Client E} (fuel : nat) (cfg : Config.t)
    (database_id : option string) (filter_dict sorts : value) (cache_ttl : Z)
    (c : gmap string row) (w : world) :
  query_database fuel cfg database_id filter_dict sorts false cache_ttl (with_cache c w) =
  match query_database fuel cfg database_id filter_dict sorts false cache_ttl w with
  | Some (r, w') => Some (r, with_cache c w')
  | None => None
  end.
Proof.
  unfold query_database. rewrite fetch_pages_with_cache.
  by destruct (fetch_pages _ _ _ _ _ _ w) as [[[items|e] w1]|].
Qed.

(** C2: a successful [update_page] deletes the keys [page:<id>] and
    [query:*], which are not the keys the reads store under: after
    [get_page("42")] and a query have filled the cache, [update_page("42")]
    succeeds, and the cache still holds both entries; the following
    [get_page("42")] and the following query return the values from before
    the write, with no remote call. *)
Theorem update_page_leaves_cached_reads :
  let cfg := Sim.config true in
  let old_page := VDict [("id", VStr "42"); ("properties", VList [VStr "old"])] in
  let w0 := Sim.start ∅ 0
              [Sim.Ok [VStr "old"] false; Sim.Ok [VStr "old row"] false; Sim.Ok [] false]
              (Sim.Fail Sim.validation_error) in
  let '(r1, w1) := get_page "42" true w0 in
  match query_database 5 cfg None VNone VNone true 300 w1 with
  | None => False
  | Some (r2, w2) =>
      let '(r3, w3) := update_page "42" (VStr "new") w2 in
      r1 = Returned old_page /\
      r2 = Returned (VList [VStr "old row"]) /\
      r3 = Returned (VDict [("id", VStr "42"); ("properties", VStr "new")]) /\
      get (cache w3) 0 (page_key "42") None = Some old_page /\
      get (cache w3) 0 (query_key "db1" VNone VNone) (Some 300) =
        Some (VList [VStr "old row"]) /\
      get_page "42" true w3 = (Returned old_page, w3) /\
      query_database 5 cfg None VNone VNone true 300 w3 =
        Some (Returned (VList [VStr "old row"]), w3) /\
      trace w3 = [Wait; Attempt (PagesRetrieve "42");
                  Wait; Attempt (DatabasesQuery "db1" VNone VNone None);
                  Wait; Attempt (PagesUpdate "42" (VStr "new"))]
  end.
Proof.
  vm_compute. repeat split; reflexivity.
Qed.

(** The same for every environment and every write: whatever [update_page]
    does, each entry stored under a generated key is still there. *)
Lemma update_page_never_invalidates_reads
    {E : Type} `{Client E} (page_id : string) (properties : value) (w : world)
    (args : list value) (now : Z) (max_age : option Z) :
  get (cache (snd (update_page page_id properties w))) now (generate_key args) max_age =
  get (cache w) now (generate_key args) max_age.
Proof.
  unfold get. by rewrite update_page_keeps_generated_keys.
Qed.

End FacadeClaims.

(** * Further properties of the cache *)

Module CacheLaws.

Import Py LocalCache Text.

Implicit Types (c : gmap string row) (k : string) (v : value).

Lemma like_chars_percent (text : list ascii) : Sql.like_chars ["%"%char] text = true.
Proof.
  induction text as [|x text IH]; [done|].
  cbn in *. exact IH.
Qed.

Lemma like_chars_plain (pattern text : list ascii) :
  plain pattern = true ->
  Sql.like_chars pattern text = same_fold pattern text.
Proof.
  revert text. induction pattern as [|p pattern IH]; intros text Hplain.
  { by destruct text. }
  cbn in Hplain. apply andb_true_iff in Hplain as [Hp Hrest].
  unfold wildcard in Hp. apply negb_true_iff, orb_false_iff in Hp as [Hp1 Hp2].
  cbn [Sql.like_chars same_fold]. rewrite Hp1, Hp2.
  destruct text as [|x text]; [done|]. by rewrite IH.
Qed.

Lemma like_chars_plain_prefix (prefix text : list ascii) :
  plain prefix = true ->
  Sql.like_chars (prefix ++ ["%"%char]) text = prefix_fold prefix text.
Proof.
  revert text. induction prefix as [|p prefix IH]; intros text Hplain.
  { apply like_chars_percent. }
  cbn in Hplain. apply andb_true_iff in Hplain as [Hp Hrest].
  unfold wildcard in Hp. apply negb_true_iff, orb_false_iff in Hp as [Hp1 Hp2].
  cbn [app Sql.like_chars prefix_fold]. rewrite Hp1, Hp2.
  destruct text as [|x text]; [done|]. by rewrite IH.
Qed.

Lemma same_fold_length (a b : list ascii) :
  same_fold a b = true -> length a = length b.
Proof.
  revert b. induction a as [|x a IH]; intros [|y b]; cbn; try done.
  intros [_ Hab]%andb_true_iff. by rewrite (IH b).
Qed.

Lemma list_ascii_of_string_app (a b : string) :
  list_ascii_of_string (a +:+ b) = list_ascii_of_string a ++ list_ascii_of_string b.
Proof.
  induction a as [|x a IH]; [done|].
  change (String x a +:+ b) with (String x (a +:+ b)). cbn. by rewrite IH.
Qed.

Lemma length_list_ascii_of_string (s : string) :
  length (list_ascii_of_string s) = String.length s.
Proof. induction s as [|x s IH]; cbn; [done|by rewrite IH]. Qed.

(** X1: [set] writes one key and nothing else: every other key reads as
    before, at any instant and for any [max_age]; and a second [set] on the
    key replaces the row of the first altogether, value, creation instant
    and expiry. *)
Theorem set_touches_one_key c now k v ttl :
  (forall k' t max_age, k' <> k -> get (set c now k v ttl) t k' max_age = get c t k' max_age) /\
  (forall now0 v0 ttl0, set (set c now0 k v0 ttl0) now k v ttl = set c now k v ttl) /\
  (forall k' now' v' ttl', k' <> k ->
     set (set c now k v ttl) now' k' v' ttl' = set (set c now' k' v' ttl') now k v ttl).
Proof.
  repeat split.
  - intros k' t max_age Hk. unfold get, set. by rewrite lookup_insert_ne.
  - intros now0 v0 ttl0. unfold set. apply insert_insert_eq.
  - intros k' now' v' ttl' Hk. unfold set. by apply insert_insert_ne.
Qed.

(** X2: after [invalidate(k)] every read of [k] misses, whatever the instant
    and [max_age]; every other key reads as before; and on a cache that has
    no entry for [k] it changes nothing. *)
Theorem invalidate_removes_one_key c k :
  (forall t max_age, get (invalidate c k) t k max_age = None) /\
  (forall k' t max_age, k' <> k -> get (invalidate c k) t k' max_age = get c t k' max_age) /\
  (c !! k = None -> invalidate c k = c) /\
  invalidate (invalidate c k) k = invalidate c k.
Proof.
  unfold get, invalidate. repeat split.
  - intros t max_age. rewrite lookup_delete_eq. by destruct (given max_age).
  - intros k' t max_age Hk. by rewrite lookup_delete_ne.
  - apply delete_id.
  - apply delete_delete_eq.
Qed.

(** X3: a pattern without [%] and [_] is no pattern: [invalidate_pattern]
    then removes the keys that equal it up to ASCII case and keeps every
    other entry as it is; a key of another length is always kept. *)
Theorem invalidate_pattern_plain c pattern k :
  plain (list_ascii_of_string pattern) = true ->
  invalidate_pattern c pattern !! k =
    (if same_fold (list_ascii_of_string pattern) (list_ascii_of_string k)
     then None else c !! k) /\
  (String.length k <> String.length pattern -> invalidate_pattern c pattern !! k = c !! k).
Proof.
  intros Hplain.
  assert (Hlike : Sql.like k pattern =
                  same_fold (list_ascii_of_string pattern) (list_ascii_of_string k))
    by (by apply like_chars_plain).
  rewrite lookup_invalidate_pattern, Hlike. split; [done|].
  intros Hlen.
  destruct (same_fold _ _) eqn:Hsame; [|done].
  apply same_fold_length in Hsame.
  rewrite <- !length_list_ascii_of_string in Hlen. congruence.
Qed.

Lemma invalidate_pattern_plain_witness :
  let c := set (set ∅ 0 "query:a" (VInt 1) None) 0 "QUERY:*" (VInt 2) None in
  invalidate_pattern c "query:*" !! "query:a" =
    (if same_fold (list_ascii_of_string "query:*") (list_ascii_of_string "query:a")
     then None else c !! "query:a") /\
  (String.length "query:a" <> String.length "query:*" ->
   invalidate_pattern c "query:*" !! "query:a" = c !! "query:a").
Proof.
  intros c. apply (invalidate_pattern_plain c "query:*" "query:a"). reflexivity.
Defined.

(** X4: with a pattern [prefix%], [prefix] without wildcards,
    [invalidate_pattern] removes exactly the keys that start with [prefix]
    up to ASCII case: those read as misses afterwards, the others read as
    before. *)
Theorem invalidate_pattern_prefix c prefix k t max_age :
  plain (list_ascii_of_string prefix) = true ->
  get (invalidate_pattern c (prefix +:+ "%")) t k max_age =
    if prefix_fold (list_ascii_of_string prefix) (list_ascii_of_string k)
    then None else get c t k max_age.
Proof.
  intros Hplain. unfold get. rewrite lookup_invalidate_pattern.
  unfold Sql.like. rewrite list_ascii_of_string_app.
  change (list_ascii_of_string "%") with ["%"%char].
  rewrite like_chars_plain_prefix by done.
  destruct (prefix_fold _ _); [|done]. by destruct (given max_age).
Qed.

Lemma invalidate_pattern_prefix_witness :
  let c := set (set (set ∅ 0 "query:a" (VInt 1) None) 0 "query:b" (VInt 2) None)
             0 "page:c" (VInt 3) None in
  get (invalidate_pattern c ("query:" +:+ "%")) 5 "page:c" None =
    if prefix_fold (list_ascii_of_string "query:") (list_ascii_of_string "page:c")
    then None else get c 5 "page:c" None.
Proof.
  intros c. apply (invalidate_pattern_prefix c "query:" "page:c" 5 None). reflexivity.
Defined.

(** X5: the pattern [%] empties the cache, as [clear] does. *)
Theorem invalidate_pattern_percent_clears c :
  invalidate_pattern c "%" = clear c.
Proof.
  unfold clear. apply map_eq. intros k.
  rewrite lookup_invalidate_pattern, lookup_empty.
  unfold Sql.like. change (list_ascii_of_string "%") with ["%"%char].
  by rewrite like_chars_percent.
Qed.

(** X6: the sweep removes exactly the entries whose expiry instant lies
    strictly before [now]: an entry without expiry, or one that expires at
    [now] or later, is kept unchanged.  Sweeping twice is sweeping once at
    the later instant, so the sweep is idempotent. *)
Theorem cleanup_expired_sweeps c now k :
  cleanup_expired c now !! k =
    match c !! k with
    | Some r =>
        match expires_at r with
        | Some e => if e <? now then None else Some r
        | None => Some r
        end
    | None => None
    end /\
  (forall later, now <= later ->
     cleanup_expired (cleanup_expired c now) later = cleanup_expired c later) /\
  cleanup_expired (cleanup_expired c now) now = cleanup_expired c now.
Proof.
  assert (Htwice : forall later, now <= later ->
            cleanup_expired (cleanup_expired c now) later = cleanup_expired c later).
  { intros later Hle. apply map_eq. intros j.
    rewrite !lookup_cleanup_expired.
    destruct (c !! j) as [r|]; [|done].
    destruct (expired now r) eqn:Hnow; destruct (expired later r) eqn:Hlater;
      rewrite ?Hlater; try done.
    unfold expired in Hnow, Hlater. destruct (expires_at r) as [e|]; [|done].
    apply Z.ltb_lt in Hnow. apply Z.ltb_ge in Hlater. lia. }
  split; [|split; [exact Htwice|by apply Htwice]].
  rewrite lookup_cleanup_expired. destruct (c !! k) as [r|]; [|done].
  unfold expired. by destruct (expires_at r).
Qed.

(** X7: zero counts as not given.  A [max_age] of 0 makes no freshness check
    at all, so every stored entry is a hit however old; a [ttl] of 0 stores
    no expiry instant.  A negative [max_age] misses every entry that was not
    created in the future. *)
Theorem zero_means_not_given c now k v t :
  get c t k (Some 0) = get c t k None /\
  set c now k v (Some 0) = set c now k v None /\
  (forall max_age r,
     max_age < 0 -> c !! k = Some r -> created_at r <= t -> get c t k (Some max_age) = None).
Proof.
  split; [done|]. split; [done|].
  intros max_age r Hneg Hr Hcreated. unfold get.
  rewrite given_Some by lia. rewrite Hr. cbn.
  unfold timedelta.
  by destruct (Z.ltb_spec (t - max_age * 1000000) (created_at r)); [lia|].
Qed.

(** X8: freshness only decays.  A hit under a [max_age] is a hit with no
    [max_age]; for a positive [max_age] a hit at an instant is a hit at
    every earlier instant and under every larger [max_age], so once an
    entry is stale for a bound it stays stale for it until it is set
    again. *)
Theorem freshness_only_decays c k v t max_age :
  0 < max_age ->
  get c t k (Some max_age) = Some v ->
  get c t k None = Some v /\
  (forall t', t' <= t -> get c t' k (Some max_age) = Some v) /\
  (forall max_age', max_age <= max_age' -> get c t k (Some max_age') = Some v).
Proof.
  intros Hpos. unfold get. rewrite given_Some by lia.
  change (default 0 (Some max_age)) with max_age.
  destruct (c !! k) as [r|]; [|done].
  destruct (Z.ltb_spec (t - timedelta max_age) (created_at r)) as [Hfresh|]; [|done].
  intros Hv. split; [done|]. split.
  - intros t' Ht'.
    by destruct (Z.ltb_spec (t' - timedelta max_age) (created_at r)); [|lia].
  - intros max_age' Hle. rewrite given_Some by lia.
    change (default 0 (Some max_age')) with max_age'.
    unfold timedelta in *.
    by destruct (Z.ltb_spec (t - max_age' * 1000000) (created_at r)); [|lia].
Qed.

Lemma freshness_only_decays_witness :
  let c := set ∅ 0 "k" (VInt 7) None in
  get c 4000000 "k" None = Some (VInt 7) /\
  (forall t', t' <= 4000000 -> get c t' "k" (Some 5) = Some (VInt 7)) /\
  (forall max_age', 5 <= max_age' -> get c 4000000 "k" (Some max_age') = Some (VInt 7)).
Proof.
  intros c. apply (freshness_only_decays c "k" (VInt 7) 4000000 5); [lia|reflexivity].
Defined.

End CacheLaws.

(** * Further properties of the cache keys *)

Module KeyLaws.

Import Py LocalCache Text.

Lemma hex_digit_is_hex n : 0 <= n < 16 -> is_hex (hex_digit n) = true.
Proof.
  intros Hn. replace n with (Z.of_nat (Z.to_nat n)) by lia.
  assert (Hm : (Z.to_nat n < 16)%nat) by lia.
  revert Hm. generalize (Z.to_nat n) as m. intros m Hm.
  do 16 (destruct m as [|m]; [by vm_compute|]).
  lia.
Qed.

Lemma byte_low_nibble x : 0 <= Z.land x 255 mod 16 < 16.
Proof. apply Z.mod_pos_bound. lia. Qed.

Lemma hex_of_bytes (bytes : list Z) :
  Forall (fun b => exists x, b = Z.land x 255) bytes ->
  let text := fold_right (fun b acc => hex2 b +:+ acc) "" bytes in
  String.length text = (2 * length bytes)%nat /\
  forallb is_hex (list_ascii_of_string text) = true.
Proof.
  induction 1 as [|b bytes [x ->] _ [IHlen IHhex]]; [done|].
  cbn [fold_right]. cbn zeta in IHlen, IHhex.
  rewrite <- CacheLaws.length_list_ascii_of_string in IHlen |- *.
  rewrite CacheLaws.list_ascii_of_string_app, length_app, forallb_app.
  rewrite IHlen, IHhex. unfold hex2. cbn [list_ascii_of_string length forallb].
  rewrite (hex_digit_is_hex _ (byte_high_nibble x)).
  rewrite (hex_digit_is_hex _ (byte_low_nibble x)).
  split; [cbn [length]; lia|done].
Qed.

Lemma le_bytes_bytes count x :
  Forall (fun b => exists y, b = Z.land y 255) (MD5.le_bytes count x).
Proof.
  unfold MD5.le_bytes. apply List.Forall_forall. intros b Hb.
  apply in_map_iff in Hb as (i & <- & _). eauto.
Qed.

Lemma digest_bytes msg :
  length (MD5.digest msg) = 16%nat /\
  Forall (fun b => exists y, b = Z.land y 255) (MD5.digest msg).
Proof.
  unfold MD5.digest. destruct (MD5.blocks _ _ _) as [[[A B] C] D].
  split; [done|].
  repeat (apply Forall_app; split); apply le_bytes_bytes.
Qed.

(** X9: whatever its arguments, a key is a text of exactly 32 characters,
    all of them lower-case hexadecimal digits: the arguments never show in
    it. *)
Theorem generate_key_is_32_hex_digits (args : list value) :
  String.length (generate_key args) = 32%nat /\
  forallb is_hex (list_ascii_of_string (generate_key args)) = true.
Proof.
  unfold generate_key, MD5.hexdigest.
  destruct (digest_bytes (encode (join ":" (map str (List.filter is_not_None args)))))
    as [Hlen Hbytes].
  destruct (hex_of_bytes _ Hbytes) as [Htext Hhex].
  cbn zeta in Htext, Hhex. rewrite Htext, Hlen. by split.
Qed.

Lemma append_assoc (a b c : string) : (a +:+ b) +:+ c = a +:+ b +:+ c.
Proof.
  induction a as [|x a IH]; [done|].
  change ((String x a +:+ b) +:+ c) with (String x ((a +:+ b) +:+ c)).
  change (String x a +:+ b +:+ c) with (String x (a +:+ b +:+ c)).
  by rewrite IH.
Qed.

Lemma join_cons sep (p : string) (rest : list string) :
  rest <> [] -> join sep (p :: rest) = p +:+ sep +:+ join sep rest.
Proof. by destruct rest. Qed.

Lemma join_merge sep (pre : list string) (a b : string) (post : list string) :
  join sep (pre ++ a :: b :: post) = join sep (pre ++ (a +:+ sep +:+ b) :: post).
Proof.
  induction pre as [|p pre IH].
  - cbn [app]. rewrite join_cons by done.
    destruct post as [|q post]; [done|].
    rewrite (join_cons sep b) by done. rewrite (join_cons sep (a +:+ sep +:+ b)) by done.
    by rewrite !append_assoc.
  - cbn [app]. rewrite !join_cons by (by destruct pre). by rewrite IH.
Qed.

Lemma filter_map_middle (pre post : list value) (v : value) :
  is_not_None v = true ->
  map str (List.filter is_not_None (pre ++ v :: post)) =
  map str (List.filter is_not_None pre) ++ str v :: map str (List.filter is_not_None post).
Proof.
  intros Hv. rewrite List.filter_app. cbn [List.filter]. rewrite Hv.
  by rewrite map_app.
Qed.

(** X10: the key is a function of the joined text alone, so tuples that
    join to the same text collide.  Two neighbouring text arguments [a],
    [b] give the key of the single argument [a:b]; an argument that is not
    a text gives the key of its text ([1] and ["1"], [True] and ["True"]);
    and a [None] gives the key of the tuple without it. *)
Theorem generate_key_collisions (pre post : list value) :
  (forall a b,
     generate_key (pre ++ VStr a :: VStr b :: post) =
     generate_key (pre ++ VStr (a +:+ ":" +:+ b) :: post)) /\
  (forall v, v <> VNone ->
     generate_key (pre ++ v :: post) = generate_key (pre ++ VStr (str v) :: post)) /\
  generate_key (pre ++ VNone :: post) = generate_key (pre ++ post).
Proof.
  split; [|split].
  - intros a b. unfold generate_key. do 2 f_equal.
    rewrite (filter_map_middle pre (VStr b :: post) (VStr a)) by done.
    rewrite (filter_map_middle pre post (VStr (a +:+ ":" +:+ b))) by done.
    cbn [List.filter is_not_None map str]. apply join_merge.
  - intros v Hv. unfold generate_key. do 2 f_equal.
    rewrite !filter_map_middle; [done|done|by destruct v].
  - apply generate_key_drops_None.
Qed.

(** X10 on the keys of the façade: a page whose id has a colon shares its
    key with a longer tuple, and a number shares its key with its text. *)
Example page_key_collision :
  NotionAPI.page_key "a:b" = generate_key [VStr "page"; VStr "a"; VStr "b"] /\
  generate_key [VStr "page"; VInt 42] = NotionAPI.page_key "42".
Proof. by vm_compute. Qed.

End KeyLaws.

(** * Further properties of the retrying executor *)

Module RetryLaws.

Import Py NotionAPI Contract Measure RetryFacts.

Section WithClient.

Context {E : Type} `{Client E} {A : Type}.
Variables (what : request) (func : E -> result A * E).

Lemma seconds_mono a b : a <= b -> seconds a <= seconds b.
Proof. unfold seconds, LocalCache.timedelta. lia. Qed.

Lemma pow2_succ a : 0 <= a -> 2 ^ (a + 1) = 2 * 2 ^ a.
Proof. intros Ha. by rewrite Z.pow_add_r, Z.pow_1_r, Z.mul_comm by lia. Qed.

Lemma trace_after_attempt (w : world) e2 :
  trace (emit (Attempt what) (with_env e2 (wait w))) = trace w ++ [Wait; Attempt what].
Proof. cbn. by rewrite <- app_assoc. Qed.

Lemma trace_after_sleep (w : world) e2 micros :
  trace (sleep micros (emit (Attempt what) (with_env e2 (wait w)))) =
  trace w ++ [Wait; Attempt what; Sleep micros].
Proof. cbn. by rewrite <- !app_assoc. Qed.

(** The shape of what the loop adds to the trace, with [r] iterations left
    from attempt [a] of a budget [n]. *)
Lemma retry_loop_shape n r a (w : world) :
  0 <= a -> a + Z.of_nat r = n ->
  exists tl,
    trace (snd (retry_loop what func n r a w)) = trace w ++ tl /\
    (attempts tl <= r)%nat /\
    waits tl = attempts tl /\
    calls tl = repeat what (attempts tl) /\
    (r <> O ->
     (sleeps tl + 1)%nat = attempts tl /\
     0 <= total_sleep tl <= seconds (2 ^ (n - 1) - 2 ^ a)).
Proof.
  revert a w. induction r as [|r IH]; intros a w Ha Hn.
  { exists []. cbn. rewrite app_nil_r. repeat split; done. }
  assert (Hpow : 2 ^ a <= 2 ^ (n - 1)) by (apply Z.pow_le_mono_r; lia).
  assert (Hpos : 0 < 2 ^ a) by (apply Z.pow_pos_nonneg; lia).
  assert (Hlast : exists tl,
            trace w ++ [Wait; Attempt what] = trace w ++ tl /\
            (attempts tl <= S r)%nat /\ waits tl = attempts tl /\
            calls tl = repeat what (attempts tl) /\
            (S r <> O ->
             (sleeps tl + 1)%nat = attempts tl /\
             0 <= total_sleep tl <= seconds (2 ^ (n - 1) - 2 ^ a))).
  { exists [Wait; Attempt what]. cbn. repeat split; try done; try lia.
    unfold seconds, LocalCache.timedelta. lia. }
  assert (Hmore : forall micros e2,
            (a <? n - 1) = true -> 0 <= micros <= seconds (2 ^ a) ->
            exists tl,
              trace (snd (retry_loop what func n r (a + 1)
                            (sleep micros (emit (Attempt what) (with_env e2 (wait w)))))) =
                trace w ++ tl /\
              (attempts tl <= S r)%nat /\ waits tl = attempts tl /\
              calls tl = repeat what (attempts tl) /\
              (S r <> O ->
               (sleeps tl + 1)%nat = attempts tl /\
               0 <= total_sleep tl <= seconds (2 ^ (n - 1) - 2 ^ a))).
  { intros micros e2 Hlt Hmicros. apply Z.ltb_lt in Hlt.
    destruct (IH (a + 1) (sleep micros (emit (Attempt what) (with_env e2 (wait w)))))
      as (tl & Htl & Hatt & Hwait & Hcalls & Hrest); [lia|lia|].
    destruct Hrest as [Hsl Htot]; [lia|].
    exists (Wait :: Attempt what :: Sleep micros :: tl).
    rewrite Htl, trace_after_sleep, <- app_assoc.
    split; [done|].
    unfold attempts, waits, sleeps in *. cbn [List.filter is_attempt is_wait is_sleep
      length calls total_sleep repeat].
    repeat split; try lia; try (by rewrite Hcalls).
    rewrite pow2_succ in Htot by lia.
    unfold seconds, LocalCache.timedelta in *. lia. }
  rewrite retry_loop_S. cbn zeta.
  destruct (func (env (wait w))) as [[x|[code msg|msg|msg]] e2]; cbn [snd].
  - rewrite trace_after_attempt. exact Hlast.
  - destruct (String.eqb code "rate_limited" && (a <? n - 1)) eqn:Hc.
    + apply andb_true_iff in Hc as [_ Hlt]. apply Hmore; [done|].
      unfold seconds, LocalCache.timedelta. lia.
    + cbn [snd]. rewrite trace_after_attempt. exact Hlast.
  - destruct (a <? n - 1) eqn:Hlt.
    + apply Hmore; [done|]. unfold seconds, LocalCache.timedelta. lia.
    + cbn [snd]. rewrite trace_after_attempt. exact Hlast.
  - rewrite trace_after_attempt. exact Hlast.
Qed.

(** With a budget the outcome of the loop is the call's own: a value that
    the call returned, or an error that the call raised, in some state. *)
Lemma retry_loop_outcome n k a (w : world) :
  a + Z.of_nat k = n - 1 ->
  (exists x s, fst (retry_loop what func n (S k) a w) = Returned (Some x) /\
               fst (func s) = Returned x) \/
  (exists e s, fst (retry_loop what func n (S k) a w) = Raised e /\
               fst (func s) = Raised e).
Proof.
  revert a w. induction k as [|k IH]; intros a w Hk; rewrite retry_loop_S; cbn zeta.
  all: destruct (func (env (wait w))) as [r e2] eqn:Hf.
  all: assert (Hfst : fst (func (env (wait w))) = r) by (by rewrite Hf).
  all: destruct r as [x|[code msg|msg|msg]]; try (left; by eauto); try (right; by eauto).
  - destruct (_ && _) eqn:Hc; [|right; by eauto].
    apply andb_true_iff in Hc as [_ Hlt]. apply Z.ltb_lt in Hlt. lia.
  - destruct (_ <? _) eqn:Hlt; [|right; by eauto].
    apply Z.ltb_lt in Hlt. lia.
  - destruct (_ && _); [|right; by eauto]. apply IH. lia.
  - destruct (_ <? _); [|right; by eauto]. apply IH. lia.
Qed.

End WithClient.

(** X11: the budget bounds the executor.  Whatever the call does, a run adds
    to the trace at most [max_retries] attempts, all of the same call, one
    rate-limiter acquisition per attempt and one sleep less than attempts;
    the time slept is at most [2^(max_retries-1) - 1] seconds (3 seconds
    for the budget of 3); and the cache is not touched. *)
Theorem execute_with_retry_is_bounded
    {E : Type} `{Client E} {A : Type} (what : request)
    (func : E -> result A * E) (max_retries : Z) (w : world) :
  exists tl,
    trace (snd (_execute_with_retry what func max_retries w)) = trace w ++ tl /\
    (attempts tl <= Z.to_nat max_retries)%nat /\
    waits tl = attempts tl /\
    calls tl = repeat what (attempts tl) /\
    (1 <= max_retries ->
     (sleeps tl + 1)%nat = attempts tl /\
     0 <= total_sleep tl <= seconds (2 ^ (max_retries - 1) - 1)) /\
    cache (snd (_execute_with_retry what func max_retries w)) = cache w.
Proof.
  unfold _execute_with_retry.
  destruct (Z.le_gt_cases 1 max_retries) as [Hpos|Hneg].
  - destruct (retry_loop_shape what func max_retries (Z.to_nat max_retries) 0 w)
      as (tl & Htl & Hatt & Hwait & Hcalls & Hrest); [lia|lia|].
    exists tl. repeat split; try done.
    + apply Hrest. lia.
    + apply Hrest. lia.
    + change (2 ^ 0) with 1 in Hrest. apply Hrest. lia.
    + apply retry_loop_cache.
  - replace (Z.to_nat max_retries) with O by lia.
    exists []. cbn. rewrite app_nil_r. repeat split; try done; lia.
Qed.

(** X12: the executor falls out of its loop exactly when its budget is zero
    or less: it then returns Python's [None] without calling anything and
    leaves the world as it was.  With a budget of one or more it makes at
    least one attempt and its outcome is the call's own: the value that an
    attempt returned, or the error that an attempt raised.  A value
    returned by the first attempt is returned as it is, Python's [None]
    included. *)
Theorem execute_with_retry_falls_through_iff_no_budget
    {E : Type} `{Client E} {A : Type} (what : request)
    (func : E -> result A * E) (max_retries : Z) (w : world) :
  (max_retries <= 0 -> _execute_with_retry what func max_retries w = (Returned None, w)) /\
  (1 <= max_retries ->
   ((exists x s, fst (_execute_with_retry what func max_retries w) = Returned (Some x) /\
                 fst (func s) = Returned x) \/
    (exists e s, fst (_execute_with_retry what func max_retries w) = Raised e /\
                 fst (func s) = Raised e)) /\
   (exists tl,
      trace (snd (_execute_with_retry what func max_retries w)) =
      trace w ++ Wait :: Attempt what :: tl) /\
   (forall x, fst (func (env (wait w))) = Returned x ->
      fst (_execute_with_retry what func max_retries w) = Returned (Some x))).
Proof.
  split; intros Hn.
  - unfold _execute_with_retry. by replace (Z.to_nat max_retries) with O by lia.
  - split; [|split].
    + unfold _execute_with_retry.
      destruct (Z.to_nat max_retries) as [|k] eqn:Hk; [lia|].
      apply retry_loop_outcome. lia.
    + unfold _execute_with_retry.
      destruct (retry_loop_trace what func max_retries (Z.to_nat max_retries) 0 w)
        as (tl & Htl & Hhead).
      destruct Hhead as [tl' ->]; [lia|]. by exists tl'.
    + intros x Hx. by rewrite (RemoteReads.execute_first_success what func max_retries w x).
Qed.

(** A call that returns [None]: with a budget the executor hands the
    [None] of the call on; without one it falls through to its own. *)
Example execute_with_retry_hands_None_on :
  let returns_None (s : Sim.env) : result value * Sim.env := (Returned VNone, s) in
  let w := Sim.start ∅ 0 [] (Sim.Ok [] false) in
  fst (_execute_with_retry (PagesRetrieve "42") returns_None 3 w) = Returned (Some VNone) /\
  trace (snd (_execute_with_retry (PagesRetrieve "42") returns_None 3 w)) =
    [Wait; Attempt (PagesRetrieve "42")] /\
  _execute_with_retry (PagesRetrieve "42") returns_None 0 w = (Returned None, w).
Proof. by vm_compute. Qed.

(** X13: one transient failure is absorbed.  When the first attempt fails
    with a retryable error and the second succeeds, the executor (budget of
    two or more) returns the second attempt's value after a sleep of one
    second, whether the failure was a rate limit or a timeout. *)
Theorem execute_with_retry_absorbs_one_failure
    {E : Type} `{Client E} {A : Type} (what : request)
    (func : E -> result A * E) (max_retries : Z) (w : world) (e : exn) (a : A) :
  2 <= max_retries ->
  retryable e = true ->
  fst (func (env (wait w))) = Raised e ->
  (let w1 := sleep (seconds 1)
               (emit (Attempt what) (with_env (snd (func (env (wait w)))) (wait w))) in
   fst (func (env (wait w1))) = Returned a) ->
  fst (_execute_with_retry what func max_retries w) = Returned (Some a) /\
  trace (snd (_execute_with_retry what func max_retries w)) =
    trace w ++ [Wait; Attempt what; Sleep (seconds 1); Wait; Attempt what].
Proof.
  intros Hn He Hfail Hok. unfold _execute_with_retry.
  destruct (Z.to_nat max_retries) as [|[|k]] eqn:Hk; [lia|lia|].
  rewrite retry_loop_S. cbn zeta in *.
  destruct (func (env (wait w))) as [r1 e1]; cbn [fst snd] in *; subst r1.
  assert (Hlt : (0 <? max_retries - 1) = true) by (apply Z.ltb_lt; lia).
  assert (Hstep : forall w1 : world,
            fst (func (env (wait w1))) = Returned a ->
            fst (retry_loop what func max_retries (S k) (0 + 1) w1) = Returned (Some a) /\
            trace (snd (retry_loop what func max_retries (S k) (0 + 1) w1)) =
              trace w1 ++ [Wait; Attempt what]).
  { intros w1 Hw1. rewrite retry_loop_S. cbn zeta.
    destruct (func (env (wait w1))) as [r2 e2]; cbn [fst] in Hw1; subst r2.
    cbn. by rewrite <- app_assoc. }
  unfold retryable in He.
  destruct e as [code msg|msg|msg]; cbn in He; try done.
  - rewrite orb_false_r in He. rewrite He, Hlt. cbn [andb].
    change (2 ^ 0) with 1.
    destruct (Hstep _ Hok) as [-> ->]. split; [done|].
    rewrite trace_after_sleep, <- app_assoc. done.
  - rewrite Hlt. destruct (Hstep _ Hok) as [-> ->]. split; [done|].
    rewrite trace_after_sleep, <- app_assoc. done.
Qed.

Lemma execute_with_retry_absorbs_one_failure_witness :
  let what := PagesRetrieve "42" in
  let w := Sim.start ∅ 0 [Sim.Fail Sim.rate_limit_error; Sim.Ok [VStr "x"] false]
             (Sim.Fail Sim.validation_error) in
  let page := VDict [("id", VStr "42"); ("properties", VList [VStr "x"])] in
  fst (_execute_with_retry what (pages_retrieve "42") 3 w) = Returned (Some page) /\
  trace (snd (_execute_with_retry what (pages_retrieve "42") 3 w)) =
    trace w ++ [Wait; Attempt what; Sleep (seconds 1); Wait; Attempt what].
Proof.
  intros what w page.
  apply (execute_with_retry_absorbs_one_failure what (pages_retrieve "42") 3 w
           Sim.rate_limit_error page); [lia | reflexivity | reflexivity | reflexivity].
Defined.

(** Turns [H : retryable e = true], [e] a constructor, into the test the
    executor makes on it, and closes the goal when [e] is not retryable. *)
Ltac retry_kind H :=
  cbn in H;
  first
    [ discriminate H
    | apply orb_true_iff in H as [H|H]; [vm_compute in H|discriminate H]
    | clear H ].

(** X14: when the budget is used up, the error raised is that of the last
    attempt, not of the first; and each backoff follows the kind of the
    failure it comes after: [2^i] seconds after a rate limit at attempt
    [i], one second after a timeout. *)
Theorem exhausted_retries_raise_the_last_error
    (e0 e1 e2 : exn) (c : gmap string LocalCache.row) (t : Z) (otherwise : Sim.reply) :
  retryable e0 = true -> retryable e1 = true -> retryable e2 = true ->
  let what := PagesRetrieve "42" in
  let w := Sim.start c t [Sim.Fail e0; Sim.Fail e1; Sim.Fail e2] otherwise in
  fst (_execute_with_retry what (pages_retrieve "42") 3 w) = Raised e2 /\
  trace (snd (_execute_with_retry what (pages_retrieve "42") 3 w)) =
    [Wait; Attempt what; Sleep (backoff e0 0);
     Wait; Attempt what; Sleep (backoff e1 1);
     Wait; Attempt what] /\
  Sim.script (env (snd (_execute_with_retry what (pages_retrieve "42") 3 w))) = [].
Proof.
  unfold retryable, backoff. intros H0 H1 H2.
  destruct e0 as [c0 m0|m0|m0], e1 as [c1 m1|m1|m1], e2 as [c2 m2|m2|m2];
    retry_kind H0; retry_kind H1; retry_kind H2;
    vm_compute; rewrite ?H0, ?H1, ?H2; repeat split; reflexivity.
Qed.

Lemma exhausted_retries_raise_the_last_error_witness :
  let what := PagesRetrieve "42" in
  let w := Sim.start ∅ 0
             [Sim.Fail Sim.timeout_error; Sim.Fail Sim.rate_limit_error;
              Sim.Fail Sim.timeout_error] (Sim.Ok [] false) in
  fst (_execute_with_retry what (pages_retrieve "42") 3 w) = Raised Sim.timeout_error /\
  trace (snd (_execute_with_retry what (pages_retrieve "42") 3 w)) =
    [Wait; Attempt what; Sleep (backoff Sim.timeout_error 0);
     Wait; Attempt what; Sleep (backoff Sim.rate_limit_error 1);
     Wait; Attempt what] /\
  Sim.script (env (snd (_execute_with_retry what (pages_retrieve "42") 3 w))) = [].
Proof.
  apply (exhausted_retries_raise_the_last_error Sim.timeout_error Sim.rate_limit_error
           Sim.timeout_error ∅ 0 (Sim.Ok [] false)); reflexivity.
Defined.

(** X15: a fatal error stops the retries at whatever attempt it comes: after
    a retryable failure and a fatal one the executor raises the fatal error
    with two attempts made, and the third reply of the remote service is
    never asked for. *)
Theorem fatal_error_stops_later_attempts
    (e0 e1 : exn) (c : gmap string LocalCache.row) (t : Z)
    (third otherwise : Sim.reply) :
  retryable e0 = true -> fatal e1 = true ->
  let what := PagesRetrieve "42" in
  let w := Sim.start c t [Sim.Fail e0; Sim.Fail e1; third] otherwise in
  fst (_execute_with_retry what (pages_retrieve "42") 3 w) = Raised e1 /\
  trace (snd (_execute_with_retry what (pages_retrieve "42") 3 w)) =
    [Wait; Attempt what; Sleep (seconds 1); Wait; Attempt what] /\
  Sim.script (env (snd (_execute_with_retry what (pages_retrieve "42") 3 w))) = [third].
Proof.
  unfold retryable, fatal. intros H0 H1.
  destruct e0 as [c0 m0|m0|m0], e1 as [c1 m1|m1|m1];
    retry_kind H0; cbn in H1; try discriminate H1;
    try (rewrite andb_true_r in H1; apply negb_true_iff in H1; vm_compute in H1);
    vm_compute; rewrite ?H0, ?H1; repeat split; reflexivity.
Qed.

Lemma fatal_error_stops_later_attempts_witness :
  let what := PagesRetrieve "42" in
  let w := Sim.start ∅ 0
             [Sim.Fail Sim.timeout_error; Sim.Fail Sim.validation_error; Sim.Ok [] false]
             (Sim.Ok [] false) in
  fst (_execute_with_retry what (pages_retrieve "42") 3 w) = Raised Sim.validation_error /\
  trace (snd (_execute_with_retry what (pages_retrieve "42") 3 w)) =
    [Wait; Attempt what; Sleep (seconds 1); Wait; Attempt what] /\
  Sim.script (env (snd (_execute_with_retry what (pages_retrieve "42") 3 w))) =
    [Sim.Ok [] false].
Proof.
  apply (fatal_error_stops_later_attempts Sim.timeout_error Sim.validation_error
           ∅ 0 (Sim.Ok [] false) (Sim.Ok [] false)); reflexivity.
Defined.

End RetryLaws.

(** * Further properties of the façade *)

Module FacadeLaws.

Import Py LocalCache NotionAPI Contract Measure FacadeFacts.

Section WithClient.

Context {E : Type} `{Client E}.

Lemma get_time_free (c : gmap string row) t t' k :
  get c t k None = get c t' k None.
Proof. done. Qed.

Lemma cache_hit_Some cached v : cache_hit cached = Some v -> cached = Some v /\ truthy v = true.
Proof.
  destruct cached as [x|]; [|done]. cbn.
  destruct (truthy x) eqn:Hx; [|done]. by intros [= ->].
Qed.

Lemma cache_hit_truthy v : truthy v = true -> cache_hit (Some v) = Some v.
Proof. intros Hv. cbn. by rewrite Hv. Qed.

End WithClient.

Lemma length_cursor_of (i : nat) : String.length (Pager.cursor_of i) = i.
Proof. induction i as [|i IH]; [done|]. cbn. by rewrite IH. Qed.

Lemma page_index_cursor_at (i : nat) : Pager.page_index (cursor_at i) = i.
Proof. destruct i; [done|]. apply length_cursor_of. Qed.

(** One page request to the paging service: the page its cursor selects,
    with the cursor of the next page when there is one, after [latency]. *)
Lemma pager_request db_id filter_dict sorts (i : nat) (c : gmap string row)
    (e : Pager.env) (tr : list event) (page : list value) :
  Pager.pages e !! i = Some page ->
  _execute_with_retry (DatabasesQuery db_id filter_dict sorts (cursor_at i))
    (databases_query db_id filter_dict sorts (cursor_at i)) default_max_retries
    (World c e tr) =
  (Returned (Some (QueryResponse page (S i <? length (Pager.pages e))%nat
                     (if (S i <? length (Pager.pages e))%nat
                      then Some (Pager.cursor_of (S i)) else None))),
   World c (Pager.elapse e)
     (tr ++ [Wait; Attempt (DatabasesQuery db_id filter_dict sorts (cursor_at i))])).
Proof.
  intros Hpage.
  assert (Hquery : Pager.query (cursor_at i) e =
            (Returned (QueryResponse page (S i <? length (Pager.pages e))%nat
                         (if (S i <? length (Pager.pages e))%nat
                          then Some (Pager.cursor_of (S i)) else None)),
             Pager.elapse e)).
  { unfold Pager.query. rewrite page_index_cursor_at, Hpage. done. }
  rewrite (RemoteReads.execute_first_success _ _ _ _
             (QueryResponse page (S i <? length (Pager.pages e))%nat
                (if (S i <? length (Pager.pages e))%nat
                 then Some (Pager.cursor_of (S i)) else None)));
    [|done|by cbn; rewrite Hquery].
  unfold emit, with_env, wait, emit, with_env. cbn. rewrite Hquery. cbn.
  by rewrite <- app_assoc.
Qed.

(** X16: a query answered in pages returns the items of all pages, in
    order, as one list.  Against a remote service that holds [n >= 1] pages
    and serves the page its cursor selects, a query that misses the cache
    (with fuel for [n] requests) makes exactly [n] requests, the first
    without cursor and each later one with the cursor the page before
    announced, returns the concatenation of the pages, and stores it under
    the query's key with no expiry, stamped with the clock after the last
    request ([n] latencies after the start), not with the clock at the
    start. *)
Theorem query_database_flattens_pages
    (pages : list (list value)) (fuel : nat) (cfg : Config.t)
    (database_id : option string) (filter_dict sorts : value) (cache_ttl : Z)
    (c : gmap string row) (t latency : Z) :
  pages <> [] ->
  (length pages <= fuel)%nat ->
  cache_hit (get c t (query_key (db_id_of cfg database_id) filter_dict sorts)
               (Some cache_ttl)) = None ->
  query_database fuel cfg database_id filter_dict sorts true cache_ttl
    (Pager.start c t pages latency) =
  Some (Returned (VList (concat pages)),
        World
          (<[query_key (db_id_of cfg database_id) filter_dict sorts :=
               Row (VList (concat pages)) (t + Z.of_nat (length pages) * latency) None]> c)
          (Pager.Env (t + Z.of_nat (length pages) * latency) pages latency)
          (page_requests (db_id_of cfg database_id) filter_dict sorts 0 (length pages))).
Proof.
  intros Hpages Hfuel Hmiss.
  assert (Hfetch : forall k i fuel acc tr clock,
            (i + k = length pages)%nat -> (1 <= k)%nat -> (k <= fuel)%nat ->
            fetch_pages fuel (db_id_of cfg database_id) filter_dict sorts (cursor_at i) acc
              (World c (Pager.Env clock pages latency) tr) =
            Some (Returned (acc ++ concat (drop i pages)),
                  World c (Pager.Env (clock + Z.of_nat k * latency) pages latency)
                    (tr ++ page_requests (db_id_of cfg database_id) filter_dict sorts i k))).
  { clear. induction k as [|k IH]; intros i fuel acc tr clock Hik Hk Hfuel; [lia|].
    destruct fuel as [|fuel]; [lia|].
    destruct (lookup_lt_is_Some_2 pages i) as [page Hpage]; [lia|].
    cbn [fetch_pages]. rewrite (pager_request _ _ _ i c _ tr page) by done.
    cbn [results has_more next_cursor Pager.pages].
    rewrite (drop_S pages page i) by done. cbn [concat].
    destruct k as [|k].
    - replace (S i <? length pages)%nat with false
        by (symmetry; apply Nat.ltb_ge; lia).
      rewrite (drop_ge pages (S i)) by lia. cbn [concat page_requests].
      rewrite app_nil_r. do 3 f_equal. unfold Pager.elapse. cbn. f_equal. lia.
    - replace (S i <? length pages)%nat with true
        by (symmetry; apply Nat.ltb_lt; lia).
      change (Some (Pager.cursor_of (S i))) with (cursor_at (S i)).
      unfold Pager.elapse. cbn [Pager.clock Pager.pages Pager.latency].
      rewrite (IH (S i) fuel) by lia.
      rewrite <- !app_assoc. cbn [page_requests app].
      do 3 f_equal. f_equal. lia. }
  unfold query_database, Pager.start. cbn [cache env Pager.client datetime_now Pager.clock].
  rewrite Hmiss.
  change None with (cursor_at 0) at 1.
  rewrite (Hfetch (length pages) O fuel [] [] t);
    [|lia|destruct pages; [done|cbn; lia]|done].
  by rewrite drop_0.
Qed.

Lemma query_database_flattens_pages_witness :
  query_database 2 (Sim.config true) None VNone VNone true 300
    (Pager.start ∅ 0 [[VStr "a"; VStr "b"]; [VStr "c"]] 7) =
  Some (Returned (VList (concat [[VStr "a"; VStr "b"]; [VStr "c"]])),
        World
          (<[query_key (db_id_of (Sim.config true) None) VNone VNone :=
               Row (VList (concat [[VStr "a"; VStr "b"]; [VStr "c"]]))
                 (0 + Z.of_nat (length [[VStr "a"; VStr "b"]; [VStr "c"]]) * 7) None]> ∅)
          (Pager.Env (0 + Z.of_nat (length [[VStr "a"; VStr "b"]; [VStr "c"]]) * 7)
             [[VStr "a"; VStr "b"]; [VStr "c"]] 7)
          (page_requests (db_id_of (Sim.config true) None) VNone VNone 0
             (length [[VStr "a"; VStr "b"]; [VStr "c"]]))).
Proof.
  apply (query_database_flattens_pages [[VStr "a"; VStr "b"]; [VStr "c"]] 2
           (Sim.config true) None VNone VNone 300 ∅ 0 7);
    [discriminate | cbn; lia | reflexivity].
Defined.

(** The run of two pages: the two requests, the second with the cursor
    the first page announced, and the entry stamped two latencies after
    the start. *)
Example two_pages_run :
  option_map (fun out => (fst out, trace (snd out), cache (snd out) !! query_key "db1" VNone VNone))
    (query_database 2 (Sim.config true) None VNone VNone true 300
       (Pager.start ∅ 0 [[VStr "a"; VStr "b"]; [VStr "c"]] 7)) =
  Some (Returned (VList [VStr "a"; VStr "b"; VStr "c"]),
        [Wait; Attempt (DatabasesQuery "db1" VNone VNone None);
         Wait; Attempt (DatabasesQuery "db1" VNone VNone (Some "c"))],
        Some (Row (VList [VStr "a"; VStr "b"; VStr "c"]) 14 None)).
Proof. by vm_compute. Qed.

(** X17: a read writes no key but its own, and a read that fails writes
    nothing.  After [query_database] or [get_page], every key other than the
    read's own key holds what it held; and when the read raises, the whole
    cache is as it was. *)
Theorem reads_write_their_own_key_only
    {E : Type} `{Client E} (fuel : nat) (cfg : Config.t)
    (database_id : option string) (filter_dict sorts : value) (use_cache : bool)
    (cache_ttl : Z) (page_id : string) (w : world) :
  (forall r w',
     query_database fuel cfg database_id filter_dict sorts use_cache cache_ttl w =
       Some (r, w') ->
     (forall k, k <> query_key (db_id_of cfg database_id) filter_dict sorts ->
        cache w' !! k = cache w !! k) /\
     (forall e, r = Raised e -> cache w' = cache w)) /\
  (forall k, k <> page_key page_id ->
     cache (snd (get_page page_id use_cache w)) !! k = cache w !! k) /\
  (forall e, fst (get_page page_id use_cache w) = Raised e ->
     cache (snd (get_page page_id use_cache w)) = cache w).
Proof.
  split; [|split].
  - intros r w'. unfold query_database.
    destruct (if use_cache then _ else None) as [v|].
    { intros [= <- <-]. by split. }
    destruct (fetch_pages _ _ _ _ _ _ w) as [[[items|e] w1]|] eqn:Hfetch; [| |done].
    all: apply fetch_pages_cache in Hfetch; intros [= <- <-].
    + split; [|done]. intros k Hk.
      destruct use_cache; cbn [cache with_cache]; [|congruence].
      unfold set. rewrite lookup_insert_ne by done. congruence.
    + split; [congruence|done].
  - intros k Hk. unfold get_page.
    destruct (if use_cache then _ else None) as [v|]; [done|].
    pose proof (execute_cache (PagesRetrieve page_id) (pages_retrieve page_id)
                  default_max_retries w) as Hc.
    destruct (_execute_with_retry _ _ _ w) as [[page|e] w1]; cbn in Hc |- *; [|congruence].
    destruct use_cache; cbn [cache with_cache]; [|congruence].
    unfold set. rewrite lookup_insert_ne by done. congruence.
  - intros e. unfold get_page.
    destruct (if use_cache then _ else None) as [v|]; [done|].
    pose proof (execute_cache (PagesRetrieve page_id) (pages_retrieve page_id)
                  default_max_retries w) as Hc.
    by destruct (_execute_with_retry _ _ _ w) as [[page|e'] w1].
Qed.

(** X18: the window of a cached query.  While a truthy result stored at
    instant [t0] is less than [cache_ttl] seconds old, [query_database]
    returns it and makes no remote call; from exactly [cache_ttl] seconds on
    it goes to the remote service again: the first page is requested, and
    the read returns and stores what the fetch gives.  An expiry instant on
    the entry plays no part. *)
Theorem query_database_ttl_window
    {E : Type} `{Client E} (fuel : nat) (cfg : Config.t)
    (database_id : option string) (filter_dict sorts v : value) (cache_ttl t0 : Z)
    (expiry : option Z) (w : world) :
  0 < cache_ttl ->
  truthy v = true ->
  cache w !! query_key (db_id_of cfg database_id) filter_dict sorts = Some (Row v t0 expiry) ->
  (datetime_now (env w) - t0 < timedelta cache_ttl ->
   query_database fuel cfg database_id filter_dict sorts true cache_ttl w =
     Some (Returned v, w)) /\
  (timedelta cache_ttl <= datetime_now (env w) - t0 ->
   goes_to_remote fuel cfg database_id filter_dict sorts cache_ttl w).
Proof.
  intros Httl Hv Hrow.
  assert (Hget : get (cache w) (datetime_now (env w))
                   (query_key (db_id_of cfg database_id) filter_dict sorts) (Some cache_ttl) =
                 if datetime_now (env w) - t0 <? timedelta cache_ttl then Some v else None).
  { unfold get. rewrite given_Some by lia. rewrite Hrow. cbn.
    destruct (Z.ltb_spec (datetime_now (env w) - timedelta cache_ttl) t0),
             (Z.ltb_spec (datetime_now (env w) - t0) (timedelta cache_ttl));
      (done || lia). }
  split; intros Hage.
  - apply query_database_hit. rewrite Hget.
    destruct (Z.ltb_spec (datetime_now (env w) - t0) (timedelta cache_ttl)); [|lia].
    by apply cache_hit_truthy.
  - apply RemoteReads.miss_goes_to_remote. rewrite Hget.
    by destruct (Z.ltb_spec (datetime_now (env w) - t0) (timedelta cache_ttl)); [lia|].
Qed.

Lemma query_database_ttl_window_witness :
  let key := query_key (db_id_of (Sim.config true) None) VNone VNone in
  let c := set ∅ 0 key (VList [VInt 1]) None in
  let fresh := Sim.start c 299999999 [] (Sim.Ok [VInt 2] false) in
  let stale := Sim.start c 300000000 [] (Sim.Ok [VInt 2] false) in
  let fetched := World c (Sim.Env 300000000 [] (Sim.Ok [VInt 2] false))
                   [Wait; Attempt (DatabasesQuery "db1" VNone VNone None)] in
  query_database 3 (Sim.config true) None VNone VNone true 300 fresh =
    Some (Returned (VList [VInt 1]), fresh) /\
  query_database 3 (Sim.config true) None VNone VNone true 300 stale =
    Some (after_fetch key (Returned [VInt 2]) fetched).
Proof.
  intros key c fresh stale fetched. split.
  - refine (proj1 (query_database_ttl_window 3 (Sim.config true) None VNone VNone
                     (VList [VInt 1]) 300 0 None fresh _ _ _) _);
      [lia | reflexivity | by vm_compute | by vm_compute].
  - refine (proj2 (proj2 (proj2 (proj2 (proj2
              (query_database_ttl_window 3 (Sim.config true) None VNone VNone
                 (VList [VInt 1]) 300 0 None stale _ _ _) _)))
              (Returned [VInt 2]) fetched _) 3%nat _);
      [lia | reflexivity | by vm_compute | by vm_compute | by vm_compute | lia].
Defined.

(** X19: a cached page never goes stale by itself.  Once [get_page] has
    returned a truthy page, every later [get_page] for that id, in any
    world whose cache still holds that entry, returns the same page without
    a remote call, however much time has passed. *)
Theorem get_page_serves_the_cached_page_forever
    {E : Type} `{Client E} (page_id : string) (w w1 w2 : world) (page : value) :
  get_page page_id true w = (Returned page, w1) ->
  truthy page = true ->
  cache w2 !! page_key page_id = cache w1 !! page_key page_id ->
  get_page page_id true w2 = (Returned page, w2).
Proof.
  intros Hrun Hpage Hsame.
  assert (Hstored : get (cache w1) (datetime_now (env w2)) (page_key page_id) None = Some page).
  { revert Hrun. unfold get_page.
    destruct (cache_hit _) as [v|] eqn:Hhit.
    - intros [= -> ->]. apply cache_hit_Some in Hhit as [Hget _]. exact Hget.
    - destruct (_execute_with_retry _ _ _ w) as [[res|e] w'']; [|done].
      intros [= <- <-]. unfold get, set. cbn. by rewrite lookup_insert_eq. }
  unfold get_page.
  replace (get (cache w2) (datetime_now (env w2)) (page_key page_id) None)
    with (get (cache w1) (datetime_now (env w2)) (page_key page_id) None)
    by (unfold get; cbn; by rewrite Hsame).
  by rewrite Hstored, cache_hit_truthy.
Qed.

Lemma get_page_serves_the_cached_page_forever_witness :
  let page := VDict [("id", VStr "42"); ("properties", VList [VStr "x"])] in
  let w := Sim.start ∅ 0 [Sim.Ok [VStr "x"] false] (Sim.Fail Sim.validation_error) in
  let w1 := snd (get_page "42" true w) in
  let w2 := World (cache w1) (Sim.Env 1000000000000 [] (Sim.Fail Sim.validation_error)) [] in
  get_page "42" true w2 = (Returned page, w2).
Proof.
  intros page w w1 w2.
  apply (get_page_serves_the_cached_page_forever "42" w w1 w2 page);
    [by vm_compute | reflexivity | reflexivity].
Defined.


(** X21: [create_page] invalidates before it reads the new page's id.  When
    the remote call fails, the error is raised and the cache is as it was.
    When it succeeds, the keys that match [query:*] are deleted; then a
    result with an [id] is returned, and a result that is a dict without
    [id] makes [create_page] raise [KeyError] although the page has been
    created and the cache invalidated. *)
Theorem create_page_outcomes
    {E : Type} `{Client E} (database_id : string) (properties children : value)
    (w : world) :
  let ex := _execute_with_retry
              (PagesCreate database_id properties (children_or_empty children))
              (pages_create database_id properties (children_or_empty children))
              default_max_retries w in
  let out := create_page database_id properties children w in
  env (snd out) = env (snd ex) /\
  trace (snd out) = trace (snd ex) /\
  (forall e, fst ex = Raised e -> fst out = Raised e /\ cache (snd out) = cache w) /\
  (forall res, fst ex = Returned (Some res) ->
     cache (snd out) = invalidate_pattern (cache w) "query:*" /\
     (forall d x, res = VDict d -> assoc_get "id" d = Some x -> fst out = Returned res) /\
     (forall d, res = VDict d -> assoc_get "id" d = None ->
        fst out = Raised (OtherError "'id'"))).
Proof.
  intros ex out. unfold out, create_page. fold ex.
  pose proof (execute_cache
                (PagesCreate database_id properties (children_or_empty children))
                (pages_create database_id properties (children_or_empty children))
                default_max_retries w) as Hc.
  fold ex in Hc.
  destruct ex as [[res|e] w1]; cbn [fst snd] in *.
  - split; [by destruct (subscript _ _)|]. split; [by destruct (subscript _ _)|].
    split; [done|]. intros res' [= ->]. split; [|split].
    + destruct (subscript _ _); cbn; by rewrite Hc.
    + intros d x -> Hid. cbn. by rewrite Hid.
    + intros d -> Hid. cbn. by rewrite Hid.
  - split; [done|]. split; [done|]. split; [|done].
    by intros e' [= ->].
Qed.

(** X22: the writes only delete.  After [update_page], [create_page] or a
    whole batch, successful or not, the cache is a part of what it was: no
    write adds an entry or changes one. *)
Theorem writes_only_delete
    {E : Type} `{Client E} (page_id database_id : string)
    (properties children : value) (updates : list update) (delay : Z) (w : world) :
  cache (snd (update_page page_id properties w)) ⊆ cache w /\
  cache (snd (create_page database_id properties children w)) ⊆ cache w /\
  cache (snd (batch_update_pages updates delay w)) ⊆ cache w.
Proof.
  assert (Hdel : forall (c : gmap string row) k, invalidate_pattern (invalidate c k) "query:*" ⊆ c).
  { intros c k. unfold invalidate_pattern, invalidate.
    etrans; [apply map_filter_subseteq|apply delete_subseteq]. }
  split; [|split].
  - rewrite update_page_cache. by destruct (fst _).
  - destruct (create_page_outcomes database_id properties children w)
      as (_ & _ & Hfail & Hok).
    destruct (fst (_execute_with_retry _ _ _ w)) as [[res|]|e] eqn:Hex.
    + destruct (Hok res eq_refl) as [-> _]. apply map_filter_subseteq.
    + unfold create_page.
      pose proof (execute_cache
                    (PagesCreate database_id properties (children_or_empty children))
                    (pages_create database_id properties (children_or_empty children))
                    default_max_retries w) as Hc.
      destruct (_execute_with_retry _ _ _ w) as [r w1]; cbn in Hex, Hc; subst r.
      cbn. rewrite Hc. apply map_filter_subseteq.
    + by destruct (Hfail e eq_refl) as [_ ->].
  - unfold batch_update_pages.
    destruct (FacadeClaims.batch_loop_run delay (Z.of_nat (length updates)) updates 1 [] w)
      as (entries & w' & -> & Hrun); [lia|].
    cbn [snd]. clear -Hrun Hdel.
    assert (Hpace : forall (rest : list update) (w1 : world),
              cache (match rest with [] => w1 | _ => sleep delay w1 end) = cache w1)
      by (by intros []).
    induction Hrun as [w|w u rest res w1 entries w' Hu Hc _ IH
                        |w u rest e w1 entries w' Hu Hc _ IH]; [done| |].
    + etrans; [exact IH|]. rewrite Hpace, Hc. apply Hdel.
    + etrans; [exact IH|]. by rewrite Hpace, Hc.
Qed.

(** X23: what a successful [update_page] deletes.  It removes the entry
    under the literal key [page:<id>] and the entries whose key equals
    [query:*] up to ASCII case, and leaves every other entry as it was;
    when the remote call fails it raises that error and deletes nothing. *)
Theorem update_page_deletes_literal_keys
    {E : Type} `{Client E} (page_id : string) (properties : value) (w : world) :
  (forall res k,
     fst (update_page page_id properties w) = Returned res ->
     cache (snd (update_page page_id properties w)) !! k =
       if decide (k = "page:" +:+ page_id) then None
       else if Text.same_fold (list_ascii_of_string "query:*") (list_ascii_of_string k)
            then None
            else cache w !! k) /\
  (forall e,
     fst (update_page page_id properties w) = Raised e ->
     fst (_execute_with_retry (PagesUpdate page_id properties)
            (pages_update page_id properties) default_max_retries w) = Raised e /\
     cache (snd (update_page page_id properties w)) = cache w).
Proof.
  split.
  - intros res k Hres. rewrite update_page_cache, Hres.
    destruct (CacheLaws.invalidate_pattern_plain
                (invalidate (cache w) ("page:" +:+ page_id)) "query:*" k eq_refl) as [-> _].
    unfold invalidate. rewrite lookup_delete.
    case_decide; case_decide; try congruence; by destruct (Text.same_fold _ _).
  - intros e He. split.
    + revert He. unfold update_page.
      destruct (_execute_with_retry _ _ _ w) as [[res|e'] w1]; cbn; congruence.
    + by rewrite update_page_cache, He.
Qed.


(** A concrete run: a cached query result is cleared and the next query
    fetches the remote service's answer. *)
Example clear_cache_then_query :
  let c := set ∅ 0 (query_key "db1" VNone VNone) (VList [VInt 1]) None in
  let w := Sim.start c 0 [Sim.Ok [VInt 2] false] (Sim.Fail Sim.validation_error) in
  option_map (fun out => (fst out, trace (snd out)))
    (query_database 3 (Sim.config true) None VNone VNone true 300 w) =
    Some (Returned (VList [VInt 1]), []) /\
  option_map (fun out => (fst out, trace (snd out)))
    (query_database 3 (Sim.config true) None VNone VNone true 300 (clear_cache w)) =
    Some (Returned (VList [VInt 2]), [Wait; Attempt (DatabasesQuery "db1" VNone VNone None)]).
Proof. by vm_compute. Qed.

End FacadeLaws.

(** * Properties of the property helpers *)

Module UtilsLaws.

Import Py Utils.

Lemma for_each_names (values : list value) :
  for_each (fun x => item x "name") (map (fun v => VDict [("name", v)]) values) = Ok values.
Proof.
  induction values as [|v values IH]; [done|].
  cbn [map for_each]. rewrite IH. done.
Qed.

Lemma for_each_plain_texts (texts : list string) :
  for_each (fun x => get x "plain_text" (VStr ""))
    (map (fun s => VDict [("plain_text", VStr s)]) texts) = Ok (map VStr texts).
Proof.
  induction texts as [|s texts IH]; [done|].
  cbn [map for_each]. rewrite IH. done.
Qed.

Lemma join_texts_strs (texts : list string) :
  join_texts (map VStr texts) = Ok (fold_right String.append "" texts).
Proof.
  induction texts as [|s texts IH]; [done|].
  cbn [map join_texts fold_right]. rewrite IH. done.
Qed.

(** X25: what the [create_notion_*] helpers build, the [get_*] helpers do
    not read: the built values carry no [type], so reading one back gives
    the empty answer, whatever was put in. *)
Theorem created_properties_are_not_read_back (v : value) (values : list value) :
  get_select_value (create_notion_select v) = Ok VNone /\
  get_multi_select_value (create_notion_multi_select values) = Ok [] /\
  get_number_value (create_notion_number v) = Ok VNone /\
  get_rich_text_value (create_notion_rich_text v) = Ok VNone.
Proof. done. Qed.

(** X26: with the [type] the remote service puts on a property, a select, a
    multi-select and a number are read back as they were built; a rich text
    is not: the builder stores the text under [text.content], the reader
    looks for [plain_text], and the text read back is empty. *)
Theorem typed_properties_round_trip (v : value) (values : list value) :
  get_select_value (typed "select" (create_notion_select v)) = Ok v /\
  get_multi_select_value (typed "multi_select" (create_notion_multi_select values)) =
    Ok values /\
  get_number_value (typed "number" (create_notion_number v)) = Ok v /\
  get_rich_text_value (typed "rich_text" (create_notion_rich_text v)) = Ok (VStr "").
Proof.
  split; [done|]. split; [|done].
  unfold get_multi_select_value, create_notion_multi_select, typed.
  cbn. apply for_each_names.
Qed.



(** X28: a title (or rich text) is read as the concatenation, in order, of
    the [plain_text] of its items, an item without [plain_text] counting as
    empty; an empty array is read as [None], not as the empty text; and a
    relation is read as the number of its entries. *)
Theorem title_is_the_concatenation (texts : list string) (entries : list value) :
  get_title_value
    (VDict [("type", VStr "title");
            ("title", VList (map (fun s => VDict [("plain_text", VStr s)]) texts))]) =
    (if decide (texts = []) then Ok VNone
     else Ok (VStr (fold_right String.append "" texts))) /\
  get_rich_text_value
    (VDict [("type", VStr "rich_text");
            ("rich_text", VList (map (fun s => VDict [("plain_text", VStr s)]) texts))]) =
    (if decide (texts = []) then Ok VNone
     else Ok (VStr (fold_right String.append "" texts))) /\
  get_title_value
    (VDict [("type", VStr "title"); ("title", VList [VDict [("href", VNone)]])]) =
    Ok (VStr "") /\
  get_relation_count (VDict [("type", VStr "relation"); ("relation", VList entries)]) =
    Ok (Z.of_nat (length entries)).
Proof.
  unfold get_title_value, get_rich_text_value, get_text_value, get_relation_count.
  split; [|split; [|done]].
  - destruct texts as [|s texts']; [done|]. rewrite decide_False by done.
    cbn. rewrite for_each_plain_texts. cbn. by rewrite join_texts_strs.
  - destruct texts as [|s texts']; [done|]. rewrite decide_False by done.
    cbn. rewrite for_each_plain_texts. cbn. by rewrite join_texts_strs.
Qed.

End UtilsLaws.

(** * The pacing of a batch *)

Module BatchLaws.

Import Py LocalCache NotionAPI Contract Measure.

Lemma sim_update_page (u : update) (c : gmap string row) (t : Z)
    (rest : list Sim.reply) (otherwise : Sim.reply) (tr : list event) :
  update_page (page_id u) (properties u)
    (World c (Sim.Env t (Sim.Ok [] false :: rest) otherwise) tr) =
  (Returned (updated u),
   World (invalidate_pattern (invalidate c ("page:" +:+ page_id u)) "query:*")
     (Sim.Env t rest otherwise)
     (tr ++ [Wait; Attempt (PagesUpdate (page_id u) (properties u))])).
Proof.
  unfold update_page. cbv [_execute_with_retry default_max_retries].
  change (Z.to_nat 3) with 3%nat. cbn.
  unfold emit, with_env, wait, emit, with_env, with_cache. cbn.
  by rewrite <- app_assoc.
Qed.

Lemma batch_loop_paced (delay total : Z) (updates : list update) :
  forall (i : Z) (acc : list value) (c : gmap string row) (t : Z)
         (otherwise : Sim.reply) (tr : list event),
    i + Z.of_nat (length updates) = total + 1 ->
    exists c',
      batch_loop total delay i updates acc
        (World c (Sim.Env t (repeat (Sim.Ok [] false) (length updates)) otherwise) tr) =
      (acc ++ map (fun u => success_entry u (updated u)) updates,
       World c'
         (Sim.Env (t + delay * Z.of_nat (pred (length updates))) [] otherwise)
         (tr ++ batch_trace delay updates)).
Proof.
  induction updates as [|u rest IH]; intros i acc c t otherwise tr Hi.
  { exists c. cbn. rewrite !app_nil_r. do 3 f_equal. lia. }
  cbn [length repeat batch_loop]. rewrite sim_update_page.
  destruct rest as [|u' rest'].
  - cbn [length] in Hi.
    rewrite (proj2 (Z.ltb_ge i total)) by lia.
    eexists. cbn. do 3 f_equal. lia.
  - cbn [length] in Hi.
    rewrite (proj2 (Z.ltb_lt i total)) by lia.
    unfold sleep, emit, with_env. cbn [cache env trace time_sleep Sim.client
      Sim.clock Sim.script Sim.fallback].
    edestruct (IH (i + 1)) as [c' ->]; [cbn [length]; lia|].
    exists c'.
    change (batch_trace delay (u :: u' :: rest')) with
      (Wait :: Attempt (PagesUpdate (page_id u) (properties u)) :: Sleep delay ::
       batch_trace delay (u' :: rest')).
    rewrite <- !app_assoc. cbn [app map].
    do 3 f_equal. cbn [length pred]. lia.
Qed.

Lemma total_sleep_batch_trace (delay : Z) (updates : list update) :
  total_sleep (batch_trace delay updates) = delay * Z.of_nat (pred (length updates)) /\
  calls (batch_trace delay updates) =
    map (fun u => PagesUpdate (page_id u) (properties u)) updates.
Proof.
  induction updates as [|u rest [IHs IHc]]; [split; [cbn; lia|done]|].
  destruct rest as [|u' rest'].
  - split; [cbn; lia|done].
  - change (batch_trace delay (u :: u' :: rest')) with
      (Wait :: Attempt (PagesUpdate (page_id u) (properties u)) :: Sleep delay ::
       batch_trace delay (u' :: rest')).
    cbn [total_sleep calls]. rewrite IHs, IHc.
    split; [cbn [length pred]; lia|done].
Qed.

(** X29: the pacing of a batch.  When every update succeeds at its first
    attempt, a batch of [n] updates reports [n] successes in input order,
    calls the remote service once per item in that order, and sleeps the
    pacing delay between two items and not after the last: [n - 1] sleeps,
    [(n - 1) * delay] on the clock. *)
Theorem batch_update_pages_is_paced
    (updates : list update) (delay : Z) (c : gmap string row) (t : Z)
    (otherwise : Sim.reply) :
  let w := Sim.start c t (repeat (Sim.Ok [] false) (length updates)) otherwise in
  let out := batch_update_pages updates delay w in
  fst out = map (fun u => success_entry u (updated u)) updates /\
  trace (snd out) = batch_trace delay updates /\
  calls (trace (snd out)) = map (fun u => PagesUpdate (page_id u) (properties u)) updates /\
  total_sleep (trace (snd out)) = delay * Z.of_nat (pred (length updates)) /\
  Sim.clock (env (snd out)) = t + delay * Z.of_nat (pred (length updates)).
Proof.
  intros w out. unfold out, batch_update_pages, w, Sim.start.
  destruct (batch_loop_paced delay (Z.of_nat (length updates)) updates 1 [] c t otherwise [])
    as [c' ->]; [lia|].
  cbn [fst snd trace env Sim.clock app].
  destruct (total_sleep_batch_trace delay updates) as [Hs Hc].
  by rewrite Hs, Hc.
Qed.

End BatchLaws.
